(** * The model-health risk display of [prediction_ui.py]

    The dashboard's [main] renders, after a successful prediction, a
    "Model Health Risk" block (source lines 212-298) and, in its second
    column, a "Model Comparison" block with a system-health indicator
    (lines 337-408).  Both blocks read the JSON body of the
    [/failure-risk] endpoint and choose what to render by comparing
    numbers with fixed thresholds.

    The embedding follows the source statement by statement:
    - a Python number (int, bool or float, as [json.loads] produces them)
      is its exact value, [PyNum.num]; Python compares numbers by value,
      and a float literal of the source denotes its binary64 value,
      obtained here from the kernel's floats ([PyNum.of_float]);
    - a decoded body is a [Json.json] value of any shape, ints and floats
      apart, and the Python operations used on it ([in], [.get], [==],
      [<], [>], [min], formatting with [%]) raise what Python raises, the
      [OverflowError] of formatting an int too large for a float
      included;
    - the Streamlit calls are recorded, in order, as [St.widget]s; a block
      of the page is a computation [St.M] that renders widgets and either
      finishes or raises, and what was rendered before a raise stays on the
      page.  Streamlit's own argument checks are outside the repository
      and are not modelled; layout containers entered by [with] and the
      [help=] tooltips are left out. *)

From Stdlib Require Import ZArith QArith Floats String List Bool Lia.
Import ListNotations.
Set Warnings "-inexact-float,-register-all".

(** ** Python numbers *)

Module PyNum.

(** The value of a Python int, bool or float. *)
Inductive num : Type :=
| Fin (q : Q)
| PosInf
| NegInf
| NaN.

Definition Qltb (x y : Q) : bool :=
  (Qnum x * QDen y <? Qnum y * QDen x)%Z.

(** [x < y] on Python numbers: exact on finite values, false as soon as
    one side is NaN. *)
Definition ltb (x y : num) : bool :=
  match x, y with
  | NaN, _ | _, NaN => false
  | Fin a, Fin b => Qltb a b
  | NegInf, NegInf => false
  | NegInf, _ => true
  | _, NegInf => false
  | PosInf, _ => false
  | Fin _, PosInf => true
  end.

(** [x <= y]. *)
Definition leb (x y : num) : bool :=
  match x, y with
  | NaN, _ | _, NaN => false
  | Fin a, Fin b => Qle_bool a b
  | NegInf, _ => true
  | _, PosInf => true
  | _, NegInf => false
  | PosInf, Fin _ => false
  end.

(** [x == y]. *)
Definition eqb (x y : num) : bool :=
  match x, y with
  | Fin a, Fin b => Qeq_bool a b
  | PosInf, PosInf | NegInf, NegInf => true
  | _, _ => false
  end.

(** [x > y] is [y < x]. *)
Definition gtb (x y : num) : bool := ltb y x.

Definition lt (x y : num) : Prop := ltb x y = true.
Definition le (x y : num) : Prop := leb x y = true.
Definition gt (x y : num) : Prop := gtb x y = true.

Definition of_int (z : Z) : num := Fin (inject_Z z).

(** [True] and [False] are the ints 1 and 0. *)
Definition of_bool (b : bool) : num := of_int (if b then 1 else 0).

(** The value of a binary64 float. *)
Definition of_float (f : float) : num :=
  match Prim2SF f with
  | S754_zero _ => Fin 0
  | S754_infinity s => if s then NegInf else PosInf
  | S754_nan => NaN
  | S754_finite s m e =>
      let n := if s then Z.neg m else Z.pos m in
      Fin (match e with
           | Z0 => n # 1
           | Zpos p => (n * 2 ^ Zpos p) # 1
           | Zneg p => n # (2 ^ p)
           end)
  end.

(** [min(x, y)] of Python: the first argument unless the second is
    smaller. *)
Definition min (x y : num) : num := if ltb y x then y else x.

End PyNum.

Import PyNum.

(** ** Decoded JSON and the Python operations on it *)

Module Json.

(** A decoded value; [json.loads] gives a number without fraction or
    exponent as an int of any size ([JInt]) and any other number as a float
    ([JFloat]). *)
Inductive json : Type :=
| JNull
| JBool (b : bool)
| JInt (z : Z)
| JFloat (x : num)
| JStr (s : string)
| JArr (items : list json)
| JObj (members : list (string * json)).

(** The members of an object in document order; as in [json.loads], the
    last member with a given name is the one the dict keeps. *)
Fixpoint dict_lookup (key : string) (members : list (string * json))
  : option json :=
  match members with
  | [] => None
  | (k, v) :: rest =>
      match dict_lookup key rest with
      | Some w => Some w
      | None => if String.eqb k key then Some v else None
      end
  end.

Definition dict_has (key : string) (members : list (string * json)) : bool :=
  match dict_lookup key members with Some _ => true | None => false end.

(** [v == s] for a string literal [s]. *)
Definition eq_str (v : json) (s : string) : bool :=
  match v with
  | JStr t => String.eqb t s
  | _ => false
  end.

(** The operand of a numeric comparison, of [min] or of a [%] format. *)
Definition as_number (v : json) : option num :=
  match v with
  | JInt z => Some (of_int z)
  | JFloat x => Some x
  | JBool b => Some (of_bool b)
  | _ => None
  end.

(** An int that [float(z)] refuses with [OverflowError]: one that rounds
    to 2^1024 or beyond, which starts half a unit in the last place above
    the largest float. *)
Definition float_limit : Z := Eval vm_compute in (2 ^ 1024 - 2 ^ 970)%Z.

Definition too_large (z : Z) : bool := (float_limit <=? Z.abs z)%Z.

End Json.

Import Json.

(** ** Rendering *)

Module St.

Inductive exn : Type :=
| TypeError
| AttributeError
| ValueError
| OverflowError
| ConnectionError
| ReadTimeout
| JSONDecodeError.

(** A formatted string: literal text and numbers under a
    [{x:.N%}] format. *)
Inductive piece : Type :=
| Lit (s : string)
| Percent (digits : nat) (x : num).

Definition text : Type := list piece.

Inductive alert : Type := success | warning | error.

Inductive shown : Type :=
| Formatted (t : text)
| Raw (v : json).

(** One Streamlit call. *)
Inductive widget : Type :=
| Alert (kind : alert) (body : text)
| Progress (value : num)
| Columns (n : nat)
| Metric (label : string) (value : shown)
| Markdown (body : string)
| Caption (body : string).

Inductive outcome (A : Type) : Type :=
| Done (a : A)
| Raised (e : exn).
Arguments Done {A} a.
Arguments Raised {A} e.

(** What a block rendered, and how it ended. *)
Definition M (A : Type) : Type := (list widget * outcome A)%type.

Definition ret {A} (a : A) : M A := ([], Done a).
Definition raise {A} (e : exn) : M A := ([], Raised e).
Definition render (w : widget) : M unit := ([w], Done tt).

Definition bind {A B} (m : M A) (k : A -> M B) : M B :=
  match m with
  | (shown1, Done a) => let (shown2, r) := k a in (shown1 ++ shown2, r)
  | (shown1, Raised e) => (shown1, Raised e)
  end.

(** [try: body except: handler]. *)
Definition try_except {A} (body handler : M A) : M A :=
  match body with
  | (shown1, Done a) => (shown1, Done a)
  | (shown1, Raised _) => let (shown2, r) := handler in (shown1 ++ shown2, r)
  end.

Definition page {A} (m : M A) : list widget := fst m.
Definition ending {A} (m : M A) : outcome A := snd m.

End St.

Import St.

Declare Scope st_scope.
Delimit Scope st_scope with st.
Notation "x <- m ;; k" := (bind m (fun x => k))
  (at level 61, m at next level, right associativity) : st_scope.
Notation "m ;; k" := (bind m (fun _ => k))
  (at level 61, right associativity) : st_scope.
Open Scope string_scope.
Open Scope list_scope.
Open Scope st_scope.

(** *** Python operations that may raise *)

(** [key in container]. *)
Definition py_in (key : string) (container : json) : M bool :=
  match container with
  | JObj members => ret (dict_has key members)
  | JArr items => ret (existsb (fun v => eq_str v key) items)
  | JStr s => ret (match index 0 key s with Some _ => true | None => false end)
  | _ => raise TypeError
  end.

(** [d.get(key, default)]. *)
Definition py_get (d : json) (key : string) (default : json) : M json :=
  match d with
  | JObj members =>
      ret (match dict_lookup key members with Some v => v | None => default end)
  | _ => raise AttributeError
  end.

(** [f"{v:.N%}"]: an int is converted to a float first, which fails on
    one that is too large; a float is formatted whatever it is. *)
Definition py_percent (digits : nat) (v : json) : M piece :=
  match v with
  | JInt z =>
      if too_large z then raise OverflowError
      else ret (Percent digits (of_int z))
  | JFloat x => ret (Percent digits x)
  | JBool b => ret (Percent digits (of_bool b))
  | JStr _ => raise ValueError
  | _ => raise TypeError
  end.

(** [v > y] and [v < y] against a number. *)
Definition py_gt (v : json) (y : num) : M bool :=
  match as_number v with
  | Some x => ret (gtb x y)
  | None => raise TypeError
  end.

Definition py_lt (v : json) (y : num) : M bool :=
  match as_number v with
  | Some x => ret (ltb x y)
  | None => raise TypeError
  end.

(** [min(x, v)] with a number first. *)
Definition py_min (x : num) (v : json) : M num :=
  match as_number v with
  | Some y => ret (PyNum.min x y)
  | None => raise TypeError
  end.

(** ** The blocks of [main] *)

(** The reply to a [requests] call: the call raised, or it returned a
    response with a status code whose [.json()] gives a value or raises. *)
Inductive reply : Type :=
| Failed (e : exn)
| Response (status_code : Z) (body : option json).

Definition response_json (body : option json) : M json :=
  match body with
  | Some v => ret v
  | None => raise JSONDecodeError
  end.

(** The prediction response [result], once lines 182-208 have rendered it:
    [result["confidence"]] went through a [.2%] format there, so it is a
    number that the format accepts, here by its value. *)
Record prediction_result : Type := {
  prediction : json;
  confidence : num;
  latency : num;
  model_type : string
}.

(** The float literals of the source. *)
Definition f_0_75 : num := of_float 0.75.
Definition f_0_5 : num := of_float 0.5.
Definition f_1_0 : num := of_float 1.0.
Definition f_0_3 : num := of_float 0.3.
Definition f_0_7 : num := of_float 0.7.
Definition i_0 : num := of_int 0.

(** Lines 222-258: the branch taken when ["error" not in risk_data].  The
    second operand of [min] is [overall_deg] or [result["confidence"]]; the
    latter, known by its value, is passed as the number with that value. *)
Definition telemetry_branch (result : prediction_result) (risk_data : json)
  : M unit :=
  risk_level <- py_get risk_data "risk" (JStr "UNKNOWN") ;;
  degradation <- py_get risk_data "degradation" (JObj []) ;;
  overall_deg <- py_get degradation "overall_degradation" (JInt 0) ;;
  (if eq_str risk_level "HIGH" then
     render (Alert error [Lit "🔴 **Model Likely to Collapse**"]) ;;
     d <- py_percent 1 overall_deg ;;
     render (Alert error [Lit "Degradation: "; d; Lit " from baseline"])
   else if eq_str risk_level "MEDIUM" then
     render (Alert warning [Lit "🟡 **Model Degrading**"]) ;;
     d <- py_percent 1 overall_deg ;;
     render (Alert warning [Lit "Degradation: "; d; Lit " from baseline"])
   else
     render (Alert success [Lit "🟢 **Model Healthy**"]) ;;
     d <- py_percent 1 overall_deg ;;
     render (Alert success [Lit "Degradation: "; d; Lit " from baseline"])) ;;
  positive <- py_gt overall_deg i_0 ;;
  bar <- py_min f_1_0
           (if positive then overall_deg else JFloat (confidence result)) ;;
  render (Progress bar) ;;
  render (Columns 3) ;;
  drop <- py_get degradation "confidence_drop" (JInt 0) ;;
  drop_pct <- py_percent 2 drop ;;
  render (Metric "Confidence Drop" (Formatted [drop_pct])) ;;
  psi <- py_get degradation "psi_increase" (JInt 0) ;;
  psi_pct <- py_percent 2 psi ;;
  render (Metric "PSI Increase" (Formatted [psi_pct])) ;;
  render (Metric "Risk Level" (Raw risk_level)).

(** Lines 260-278: the [else] branch, taken when the body has ["error"]. *)
Definition error_marker_branch (result : prediction_result) : M unit :=
  let confidence := confidence result in
  (if gtb confidence f_0_75 then
     render (Alert success
               [Lit "🟢 **Model Healthy** - High confidence prediction"])
   else if gtb confidence f_0_5 then
     render (Alert warning
               [Lit "🟡 **Model Risky** - Medium confidence, monitor closely"])
   else
     render (Alert error
               [Lit "🔴 **Model Likely to Collapse** - Very low confidence!"])) ;;
  render (Progress confidence) ;;
  render (Columns 3) ;;
  render (Metric "Confidence Score" (Formatted [Percent 2 confidence])) ;;
  (let health_status :=
     if gtb confidence f_0_75 then "Healthy"
     else if gtb confidence f_0_5 then "Risky" else "Critical" in
   render (Metric "Health Status" (Formatted [Lit health_status]))) ;;
  (let risk_level :=
     if gtb confidence f_0_75 then "Low"
     else if gtb confidence f_0_5 then "Medium" else "High" in
   render (Metric "Risk Level" (Formatted [Lit risk_level]))).

(** Lines 280-298: the handler of the bare [except:]. *)
Definition except_branch (result : prediction_result) : M unit :=
  let confidence := confidence result in
  (if gtb confidence f_0_75 then
     render (Alert success
               [Lit "🟢 **Model Healthy** - High confidence prediction"])
   else if gtb confidence f_0_5 then
     render (Alert warning
               [Lit "🟡 **Model Risky** - Medium confidence, monitor closely"])
   else
     render (Alert error
               [Lit "🔴 **Model Likely to Collapse** - Very low confidence!"])) ;;
  render (Progress confidence) ;;
  render (Columns 3) ;;
  render (Metric "Confidence Score" (Formatted [Percent 2 confidence])) ;;
  (let health_status :=
     if gtb confidence f_0_75 then "Healthy"
     else if gtb confidence f_0_5 then "Risky" else "Critical" in
   render (Metric "Health Status" (Formatted [Lit health_status]))) ;;
  (let risk_level :=
     if gtb confidence f_0_75 then "Low"
     else if gtb confidence f_0_5 then "Medium" else "High" in
   render (Metric "Risk Level" (Formatted [Lit risk_level]))).

(** Lines 216-298: the "Model Health Risk" block, given the reply to
    [requests.get(f"{API_BASE_URL}/failure-risk", timeout=5)]. *)
Definition model_health_risk (result : prediction_result) (risk_response : reply)
  : M unit :=
  try_except
    (match risk_response with
     | Failed e => raise e
     | Response status_code body =>
         if (status_code =? 200)%Z then
           risk_data <- response_json body ;;
           has_error <- py_in "error" risk_data ;;
           if negb has_error then telemetry_branch result risk_data
           else error_marker_branch result
         else ret tt
     end)
    (except_branch result).

(** Lines 386-396: the [else] of the status test in the comparison block. *)
Definition comparison_unavailable : M unit :=
  render (Columns 2) ;;
  render (Markdown "**🟢 Good Model**") ;;
  render (Metric "Confidence" (Formatted [Lit "High"])) ;;
  render (Caption "✅ Stable") ;;
  render (Markdown "**🔴 Bad Model**") ;;
  render (Metric "Confidence" (Formatted [Lit "Low"])) ;;
  render (Caption "⚠️ Risky").

(** Lines 399-408: the handler of [except Exception as e]. *)
Definition comparison_failed : M unit :=
  render (Columns 2) ;;
  render (Markdown "**🟢 Good Model**") ;;
  render (Metric "Confidence" (Formatted [Lit "High"])) ;;
  render (Markdown "**🔴 Bad Model**") ;;
  render (Metric "Confidence" (Formatted [Lit "Low"])).

(** Lines 346-383: the comparison and the system health of a decoded
    [failure_data]. *)
Definition system_health (failure_data : json) : M unit :=
  render (Columns 2) ;;
  render (Markdown "**🟢 Good Model**") ;;
  render (Metric "Expected Confidence" (Formatted [Lit "High (>75%)"])) ;;
  render (Caption "✅ Stable performance") ;;
  render (Markdown "**🔴 Bad Model**") ;;
  render (Metric "Expected Confidence" (Formatted [Lit "Low (<60%)"])) ;;
  render (Caption "⚠️ May degrade faster") ;;
  render (Markdown "**📊 Current System Health**") ;;
  metrics <- py_get failure_data "metrics" (JObj []) ;;
  avg_confidence <- py_get metrics "avg_confidence" (JInt 0) ;;
  failure_prob <- py_get failure_data "failure_probability" (JInt 0) ;;
  render (Columns 2) ;;
  avg_pct <- py_percent 2 avg_confidence ;;
  render (Metric "Avg Confidence" (Formatted [avg_pct])) ;;
  prob_pct <- py_percent 2 failure_prob ;;
  render (Metric "Failure Risk" (Formatted [prob_pct])) ;;
  low <- py_lt failure_prob f_0_3 ;;
  if low then render (Alert success [Lit "✅ System Healthy"])
  else
    mid <- py_lt failure_prob f_0_7 ;;
    if mid then render (Alert warning [Lit "⚠️ System at Risk"])
    else render (Alert error [Lit "🚨 System Critical"]).

(** Lines 341-408: the "Model Comparison" block, given the reply to its
    own [requests.get(f"{API_BASE_URL}/failure-risk", timeout=5)]. *)
Definition model_comparison (failure_risk_response : reply) : M unit :=
  try_except
    (match failure_risk_response with
     | Failed e => raise e
     | Response status_code body =>
         if (status_code =? 200)%Z then
           failure_data <- response_json body ;;
           system_health failure_data
         else comparison_unavailable
     end)
    comparison_failed.

(** The two blocks as [main] runs them: the health block in the first
    column when a prediction was made and displayed ([submitted] holds its
    result and the reply to the block's request), the comparison block in
    the second column on every run, with a request of its own. *)
Definition main (submitted : option (prediction_result * reply))
  (failure_risk_response : reply) : M unit * M unit :=
  (match submitted with
   | Some (result, risk_response) => model_health_risk result risk_response
   | None => ret tt
   end,
   model_comparison failure_risk_response).

(** ** What the page shows *)

Inductive risk : Type := HEALTHY | RISKY | CRITICAL.
Inductive health : Type := SYSTEM_HEALTHY | AT_RISK | SYSTEM_CRITICAL.

(** Green, yellow and red alerts of the health block. *)
Definition risk_of_alert (k : alert) : risk :=
  match k with
  | success => HEALTHY
  | warning => RISKY
  | error => CRITICAL
  end.

(** The same colours on the system indicator. *)
Definition health_of_alert (k : alert) : health :=
  match k with
  | success => SYSTEM_HEALTHY
  | warning => AT_RISK
  | error => SYSTEM_CRITICAL
  end.

Definition alert_eqb (a b : alert) : bool :=
  match a, b with
  | success, success | warning, warning | error, error => true
  | _, _ => false
  end.

Fixpoint alerts (shown : list widget) : list alert :=
  match shown with
  | [] => []
  | Alert k _ :: rest => k :: alerts rest
  | _ :: rest => alerts rest
  end.

Fixpoint progress_bars (shown : list widget) : list num :=
  match shown with
  | [] => []
  | Progress v :: rest => v :: progress_bars rest
  | _ :: rest => progress_bars rest
  end.

Fixpoint metrics (shown : list widget) : list (string * St.shown) :=
  match shown with
  | [] => []
  | Metric label value :: rest => (label, value) :: metrics rest
  | _ :: rest => metrics rest
  end.

(** The colour shown, when there is an alert and all alerts agree. *)
Definition colour (shown : list widget) : option alert :=
  match alerts shown with
  | [] => None
  | k :: rest => if forallb (alert_eqb k) rest then Some k else None
  end.

Definition displayed_risk (shown : list widget) : option risk :=
  option_map risk_of_alert (colour shown).

Definition displayed_health (shown : list widget) : option health :=
  option_map health_of_alert (colour shown).

(** The verdict read off a rendered health block: its risk level, the
    value of its progress bar and its metrics. *)
Record verdict : Type := {
  risk_level : risk;
  progress_value : num;
  breakdown : list (string * St.shown)
}.

Definition verdict_of (shown : list widget) : option verdict :=
  match displayed_risk shown, progress_bars shown with
  | Some r, [v] =>
      Some {| risk_level := r; progress_value := v; breakdown := metrics shown |}
  | _, _ => None
  end.

(** ** Reading a report *)

(** [d.get(key, default)] on the members of a dict. *)
Definition field (key : string) (members : list (string * json))
  (default : json) : json :=
  match dict_lookup key members with
  | Some v => v
  | None => default
  end.

Definition is_number (v : json) : bool :=
  match as_number v with Some _ => true | None => false end.

(** A value the [%] format accepts: a float, a boolean, an int that a
    float can hold. *)
Definition formattable (v : json) : bool :=
  match v with
  | JInt z => negb (too_large z)
  | JFloat _ | JBool _ => true
  | _ => false
  end.

(** The number a JSON number or boolean stands for. *)
Definition number_of (v : json) : num :=
  match as_number v with Some x => x | None => NaN end.

(** A report body whose fields, where present, have the types of the
    failure-risk response: [degradation] an object, and in it
    [overall_degradation], [confidence_drop] and [psi_increase] numbers
    that the [%] format accepts.  Absent fields are allowed. *)
Definition well_typed_report (members : list (string * json)) : bool :=
  match field "degradation" members (JObj []) with
  | JObj d =>
      formattable (field "overall_degradation" d (JInt 0))
      && formattable (field "confidence_drop" d (JInt 0))
      && formattable (field "psi_increase" d (JInt 0))
  | _ => false
  end.

(** The members of the [degradation] object of a report. *)
Definition degradation_of (members : list (string * json))
  : list (string * json) :=
  match field "degradation" members (JObj []) with
  | JObj d => d
  | _ => []
  end.

(** The widgets of a telemetry rendering with the given risk string,
    degradation numbers and confidence. *)
Definition telemetry_page (risk_level : json) (overall_deg drop psi : num)
  (confidence : num) : list widget :=
  (if eq_str risk_level "HIGH" then
     [Alert error [Lit "🔴 **Model Likely to Collapse**"];
      Alert error [Lit "Degradation: "; Percent 1 overall_deg;
                   Lit " from baseline"]]
   else if eq_str risk_level "MEDIUM" then
     [Alert warning [Lit "🟡 **Model Degrading**"];
      Alert warning [Lit "Degradation: "; Percent 1 overall_deg;
                     Lit " from baseline"]]
   else
     [Alert success [Lit "🟢 **Model Healthy**"];
      Alert success [Lit "Degradation: "; Percent 1 overall_deg;
                     Lit " from baseline"]])
  ++ [Progress (PyNum.min f_1_0
                  (if gtb overall_deg i_0 then overall_deg else confidence));
      Columns 3;
      Metric "Confidence Drop" (Formatted [Percent 2 drop]);
      Metric "PSI Increase" (Formatted [Percent 2 psi]);
      Metric "Risk Level" (Raw risk_level)].

(** HIGH is CRITICAL, MEDIUM is RISKY, anything else is HEALTHY. *)
Definition risk_of_report (risk_level : json) : risk :=
  if eq_str risk_level "HIGH" then CRITICAL
  else if eq_str risk_level "MEDIUM" then RISKY
  else HEALTHY.

(** The replies that reach a confidence fallback: a decoded body with the
    ["error"] key (the [else] branch, tier 2), a request that raised or a
    body that does not decode (the [except] handler, tier 3). *)
Inductive confidence_fallback : reply -> Prop :=
| error_marker members :
    dict_has "error" members = true ->
    confidence_fallback (Response 200 (Some (JObj members)))
| request_raised e : confidence_fallback (Failed e)
| body_undecodable : confidence_fallback (Response 200 None).

(** The verdict of a fallback rendering at confidence [c]. *)
Definition fallback_verdict (level : risk) (c : num) (status label : string)
  : verdict :=
  {| risk_level := level;
     progress_value := c;
     breakdown :=
       [("Confidence Score", Formatted [Percent 2 c]);
        ("Health Status", Formatted [Lit status]);
        ("Risk Level", Formatted [Lit label])] |}.

(** The verdict the thresholds 0.75 and 0.5 give at confidence [c]. *)
Definition threshold_verdict (c : num) : verdict :=
  if gtb c f_0_75 then fallback_verdict HEALTHY c "Healthy" "Low"
  else if gtb c f_0_5 then fallback_verdict RISKY c "Risky" "Medium"
  else fallback_verdict CRITICAL c "Critical" "High".

(** A failure-risk body for the comparison block whose [metrics], where
    present, is an object with a numeric [avg_confidence], and whose
    [failure_probability], where present, is a number, both numbers that
    the [%] format accepts. *)
Definition well_typed_failure_data (members : list (string * json)) : bool :=
  match field "metrics" members (JObj []) with
  | JObj m => formattable (field "avg_confidence" m (JInt 0))
  | _ => false
  end
  && formattable (field "failure_probability" members (JInt 0)).

Definition avg_confidence_of (members : list (string * json)) : num :=
  match field "metrics" members (JObj []) with
  | JObj m => number_of (field "avg_confidence" m (JInt 0))
  | _ => NaN
  end.

Definition failure_probability_of (members : list (string * json)) : num :=
  number_of (field "failure_probability" members (JInt 0)).

(** Below 0.3 the system is healthy, below 0.7 at risk, otherwise
    critical. *)
Definition health_of_probability (p : num) : health :=
  if ltb p f_0_3 then SYSTEM_HEALTHY
  else if ltb p f_0_7 then AT_RISK
  else SYSTEM_CRITICAL.

(** The widgets of the comparison block for a decoded report. *)
Definition system_page (avg_confidence failure_prob : num) : list widget :=
  [Columns 2;
   Markdown "**🟢 Good Model**";
   Metric "Expected Confidence" (Formatted [Lit "High (>75%)"]);
   Caption "✅ Stable performance";
   Markdown "**🔴 Bad Model**";
   Metric "Expected Confidence" (Formatted [Lit "Low (<60%)"]);
   Caption "⚠️ May degrade faster";
   Markdown "**📊 Current System Health**";
   Columns 2;
   Metric "Avg Confidence" (Formatted [Percent 2 avg_confidence]);
   Metric "Failure Risk" (Formatted [Percent 2 failure_prob]);
   if ltb failure_prob f_0_3 then Alert success [Lit "✅ System Healthy"]
   else if ltb failure_prob f_0_7 then Alert warning [Lit "⚠️ System at Risk"]
   else Alert error [Lit "🚨 System Critical"]].

(** The page shows at least one alert. *)
Definition has_alert (shown : list widget) : Prop :=
  exists k rest, alerts shown = k :: rest.

(** The page shows at least one progress bar. *)
Definition has_bar (shown : list widget) : Prop :=
  exists v rest, progress_bars shown = v :: rest.

(** Every progress bar on the page is at most 1.0. *)
Definition bars_clamped (shown : list widget) : Prop :=
  Forall (fun v => le v f_1_0) (progress_bars shown).

(** ** Sample inputs *)

Definition sample_result (c : float) : prediction_result :=
  {| prediction := JInt 1;
     confidence := of_float c;
     latency := of_float 0.01;
     model_type := "good" |}.

Definition high_risk_report : list (string * json) :=
  [("risk", JStr "HIGH");
   ("degradation",
    JObj [("overall_degradation", JFloat (of_float 0.6));
          ("confidence_drop", JFloat (of_float 0.3));
          ("psi_increase", JFloat (of_float 0.2))])].

(** A report whose overall degradation is an int no float can hold. *)
Definition huge_degradation_report : list (string * json) :=
  [("risk", JStr "HIGH");
   ("degradation", JObj [("overall_degradation", JInt (10 ^ 400))])].

(** The same without a [risk]. *)
Definition huge_unlabelled_report : list (string * json) :=
  [("degradation", JObj [("overall_degradation", JInt (10 ^ 400))])].

(** A report whose overall degradation is above 1. *)
Definition overshoot_report : list (string * json) :=
  [("risk", JStr "LOW");
   ("degradation", JObj [("overall_degradation", JFloat (of_float 1.5))])].

Definition degradation_report (d : float) : list (string * json) :=
  [("risk", JStr "MEDIUM");
   ("degradation", JObj [("overall_degradation", JFloat (of_float d))])].

(** A body with the ["error"] key, holding [v], next to a HIGH risk. *)
Definition error_report (v : json) : list (string * json) :=
  [("error", v); ("risk", JStr "HIGH")].

(** A body with a failure probability and an average confidence. *)
Definition probability_report (p : float) : list (string * json) :=
  [("failure_probability", JFloat (of_float p));
   ("metrics", JObj [("avg_confidence", JFloat (of_float 0.8))])].

(** ** Ranking the levels *)

(** How bad a risk level is. *)
Definition severity (r : risk) : nat :=
  match r with
  | HEALTHY => 0
  | RISKY => 1
  | CRITICAL => 2
  end.

(** How bad a system-health level is. *)
Definition gravity (h : health) : nat :=
  match h with
  | SYSTEM_HEALTHY => 0
  | AT_RISK => 1
  | SYSTEM_CRITICAL => 2
  end.

Definition is_object (v : json) : bool :=
  match v with JObj _ => true | _ => false end.

(** The alert that opens a telemetry rendering. *)
Definition telemetry_banner (risk_level : json) : widget :=
  if eq_str risk_level "HIGH" then
    Alert error [Lit "🔴 **Model Likely to Collapse**"]
  else if eq_str risk_level "MEDIUM" then
    Alert warning [Lit "🟡 **Model Degrading**"]
  else Alert success [Lit "🟢 **Model Healthy**"].

(** Every progress bar on the page satisfies [P]. *)
Definition bars_all (P : num -> Prop) (shown : list widget) : Prop :=
  Forall P (progress_bars shown).

(** Every progress bar on the page is a value [st.progress] takes as a
    fraction: between 0 and 1. *)
Definition bars_in_range (shown : list widget) : Prop :=
  bars_all (fun v => le i_0 v /\ le v f_1_0) shown.

Definition null_degradation_report : list (string * json) :=
  [("risk", JStr "HIGH"); ("degradation", JNull)].


Definition text_degradation_report : list (string * json) :=
  [("risk", JStr "HIGH");
   ("degradation", JObj [("overall_degradation", JStr "n/a")])].


(** A report whose overall degradation is negative. *)
Definition negative_degradation_report : list (string * json) :=
  [("risk", JStr "LOW");
   ("degradation", JObj [("overall_degradation", JFloat (of_float (-0.5)))])].


(** Lines 346-367: what the comparison block renders for any decoded body,
    before it reads it. *)
Definition comparison_intro : list widget :=
  [Columns 2;
   Markdown "**🟢 Good Model**";
   Metric "Expected Confidence" (Formatted [Lit "High (>75%)"]);
   Caption "✅ Stable performance";
   Markdown "**🔴 Bad Model**";
   Metric "Expected Confidence" (Formatted [Lit "Low (<60%)"]);
   Caption "⚠️ May degrade faster";
   Markdown "**📊 Current System Health**"].

(** A decoded body the comparison block reads to its end: an object with
    well-typed fields. *)
Definition readable_failure_data (v : json) : bool :=
  match v with
  | JObj members => well_typed_failure_data members
  | _ => false
  end.

(** ** The prediction block and the input summary *)

(** What the code around the health block can raise: the exceptions above,
    a [KeyError] of [result[key]], an [IndexError] of [list[i]]. *)
Inductive raised : Type :=
| Builtin (e : exn)
| KeyError (key : string)
| IndexError.

(** A piece of an f-string of these blocks: text, [{n}] of an int,
    [{x*1000:.2f}], [s.upper()], [str(e)]. *)
Inductive part : Type :=
| Str (s : string)
| Int (z : Z)
| Millis (x : num)
| Upper (s : string)
| Message (r : raised).

Inductive notice : Type := failure | hint.

(** One Streamlit call of these blocks: a call of the kinds above, an
    [st.error] or [st.info] with its f-string, an [st.metric] with a
    formatted value, [st.subheader], [st.code], [st.expander], [st.json],
    and the [st.markdown] of the input summary, recorded by the values
    that fill its template. *)
Inductive element : Type :=
| Widget (w : widget)
| Notice (kind : notice) (body : list part)
| Figure (label : string) (value : list part)
| Subheader (body : string)
| Code (body : string)
| Expander (label : string)
| Json (v : json)
| Summary (model_class : string) (model : part) (traffic_volume hour : Z)
    (day weather road : string).

Inductive finish (A : Type) : Type :=
| Ok (a : A)
| Fault (r : raised).
Arguments Ok {A} a.
Arguments Fault {A} r.

(** What a block of the page rendered, and how it ended. *)
Definition B (A : Type) : Type := (list element * finish A)%type.

Definition b_ret {A} (a : A) : B A := ([], Ok a).
Definition b_raise {A} (r : raised) : B A := ([], Fault r).
Definition show (e : element) : B unit := ([e], Ok tt).

Definition b_bind {A C} (m : B A) (k : A -> B C) : B C :=
  match m with
  | (shown1, Ok a) => let (shown2, r) := k a in (shown1 ++ shown2, r)
  | (shown1, Fault r) => (shown1, Fault r)
  end.

(** [try: body] with handlers that together catch every exception. *)
Definition b_try {A} (body : B A) (handler : raised -> B A) : B A :=
  match body with
  | (shown1, Ok a) => (shown1, Ok a)
  | (shown1, Fault r) => let (shown2, f) := handler r in (shown1 ++ shown2, f)
  end.

(** A computation of the blocks above, run inside these. *)
Definition lift {A} (m : M A) : B A :=
  (map Widget (page m),
   match ending m with
   | Done a => Ok a
   | Raised e => Fault (Builtin e)
   end).

Declare Scope block_scope.
Delimit Scope block_scope with block.
Notation "x <- m ;; k" := (b_bind m (fun x => k))
  (at level 61, m at next level, right associativity) : block_scope.
Notation "m ;; k" := (b_bind m (fun _ => k))
  (at level 61, right associativity) : block_scope.
Open Scope block_scope.

(** [v[key]]. *)
Definition py_item (v : json) (key : string) : B json :=
  match v with
  | JObj members =>
      match dict_lookup key members with
      | Some x => b_ret x
      | None => b_raise (KeyError key)
      end
  | _ => b_raise (Builtin TypeError)
  end.

(** [f"{v*1000:.2f}"]: the product of an int is an int, which the format
    converts to a float and refuses when it is too large; a string or a
    list can be repeated 1000 times and fails in the format. *)
Definition py_millis (v : json) : B part :=
  match v with
  | JInt z =>
      if too_large (z * 1000) then b_raise (Builtin OverflowError)
      else b_ret (Millis (of_int z))
  | JFloat x => b_ret (Millis x)
  | JBool b => b_ret (Millis (of_bool b))
  | JStr _ => b_raise (Builtin ValueError)
  | _ => b_raise (Builtin TypeError)
  end.

(** [v.upper()]. *)
Definition py_upper (v : json) : B part :=
  match v with
  | JStr s => b_ret (Upper s)
  | _ => b_raise (Builtin AttributeError)
  end.

(** [l[i]] on a list: a negative index counts from the end. *)
Definition py_list_item {A} (l : list A) (i : Z) : B A :=
  let n := Z.of_nat (List.length l) in
  let j := if (i <? 0)%Z then (i + n)%Z else i in
  if ((0 <=? j) && (j <? n))%Z then
    match nth_error l (Z.to_nat j) with
    | Some a => b_ret a
    | None => b_raise IndexError
    end
  else b_raise IndexError.

(** The reply to [requests.post]: the call raised, or it returned a
    response with a status code, a text and a [.json()]. *)
Inductive post_reply : Type :=
| PostFailed (e : exn)
| PostResponse (status_code : Z) (text : string) (body : option json).

Definition string_of (v : json) : string :=
  match v with JStr s => s | _ => "" end.

(** The [result] the health block reads, once its four fields were
    displayed. *)
Definition displayed_result (prediction confidence latency model_type : json)
  : prediction_result :=
  {| prediction := prediction;
     confidence := number_of confidence;
     latency := number_of latency;
     model_type := string_of model_type |}.

(** Lines 308-313: the handlers of the prediction block. *)
Definition prediction_handlers (api_base_url : string) (r : raised) : B unit :=
  match r with
  | Builtin ConnectionError =>
      show (Notice failure
              [Str "❌ Connection failed! Is the API running at ";
               Str api_base_url; Str "?"]) ;;
      show (Notice hint
              [Str "Start the API with: `cd backend && uvicorn app:app --reload`"])
  | _ => show (Notice failure [Str "❌ Error: "; Message r])
  end.

(** Lines 165-313: what a press of the button renders, given the replies
    to the [/predict] and [/failure-risk] requests. *)
Definition prediction_block (api_base_url : string) (response : post_reply)
  (risk_response : reply) : B unit :=
  b_try
    (match response with
     | PostFailed e => b_raise (Builtin e)
     | PostResponse status_code text body =>
         if (status_code =? 200)%Z then
           result <- lift (response_json body) ;;
           show (Widget (Alert success
                           [Lit "✅ Prediction completed successfully!"])) ;;
           show (Widget (Columns 4)) ;;
           prediction <- py_item result "prediction" ;;
           show (Widget (Metric "Prediction" (Raw prediction))) ;;
           confidence <- py_item result "confidence" ;;
           confidence_pct <- lift (py_percent 2 confidence) ;;
           show (Widget (Metric "Confidence" (Formatted [confidence_pct]))) ;;
           latency <- py_item result "latency" ;;
           latency_ms <- py_millis latency ;;
           show (Figure "Latency" [latency_ms; Str " ms"]) ;;
           model_type <- py_item result "model_type" ;;
           model_used <- py_upper model_type ;;
           show (Figure "Model Used" [model_used]) ;;
           show (Widget (Markdown "---")) ;;
           show (Subheader "🏥 Model Health Risk") ;;
           lift (model_health_risk
                   (displayed_result prediction confidence latency model_type)
                   risk_response) ;;
           show (Expander "📋 View Full Response") ;;
           show (Json result)
         else
           show (Notice failure [Str "❌ API Error: "; Int status_code]) ;;
           show (Code text)
     end)
    (prediction_handlers api_base_url).

(** Lines 316-333: the input summary of the second column. *)
Definition input_summary (model_choice : string)
  (traffic_volume time_of_day day_of_week weather_risk road_risk : Z)
  : B unit :=
  show (Subheader "📝 Input Summary") ;;
  (let model_class :=
     if String.eqb model_choice "good" then "good-model" else "bad-model" in
   day <- py_list_item ["Mon"; "Tue"; "Wed"; "Thu"; "Fri"; "Sat"; "Sun"]
            day_of_week ;;
   weather <- py_list_item ["Low"; "Medium"; "High"] weather_risk ;;
   road <- py_list_item ["Low"; "Medium"; "High"] road_risk ;;
   show (Summary model_class (Upper model_choice) traffic_volume time_of_day
           day weather road)).

Close Scope block_scope.

(** A value [f"{v*1000:.2f}"] accepts. *)
Definition scalable (v : json) : bool :=
  match v with
  | JInt z => negb (too_large (z * 1000))
  | JFloat _ | JBool _ => true
  | _ => false
  end.

(** A prediction response whose four fields the block can display:
    [prediction] present, [confidence] and [latency] numbers their formats
    accept, [model_type] a string. *)
Definition readable_result (v : json) : bool :=
  match v with
  | JObj members =>
      dict_has "prediction" members
      && formattable (field "confidence" members JNull)
      && scalable (field "latency" members JNull)
      && match field "model_type" members JNull with
         | JStr _ => true
         | _ => false
         end
  | _ => false
  end.

(** The widgets of the four result metrics. *)
Definition result_metrics (members : list (string * json)) : list element :=
  [Widget (Alert success [Lit "✅ Prediction completed successfully!"]);
   Widget (Columns 4);
   Widget (Metric "Prediction" (Raw (field "prediction" members JNull)));
   Widget (Metric "Confidence"
             (Formatted
                [Percent 2 (number_of (field "confidence" members JNull))]));
   Figure "Latency"
     [Millis (number_of (field "latency" members JNull)); Str " ms"];
   Figure "Model Used" [Upper (string_of (field "model_type" members JNull))];
   Widget (Markdown "---");
   Subheader "🏥 Model Health Risk"].

(** The [result] record of a readable response. *)
Definition result_of (members : list (string * json)) : prediction_result :=
  displayed_result (field "prediction" members JNull)
    (field "confidence" members JNull) (field "latency" members JNull)
    (field "model_type" members JNull).

(** The page has the heading of the health block. *)
Definition shows_health (shown : list element) : bool :=
  existsb (fun e => match e with Subheader _ => true | _ => false end) shown.

(** The indices Python accepts on a list of length [n]. *)
Definition indexable (n i : Z) : bool := ((- n <=? i) && (i <? n))%Z.

Definition day_names : list string :=
  ["Mon"; "Tue"; "Wed"; "Thu"; "Fri"; "Sat"; "Sun"].

Definition risk_names : list string := ["Low"; "Medium"; "High"].

(** A prediction response as the API sends it. *)
Definition sample_response : list (string * json) :=
  [("prediction", JInt 1);
   ("confidence", JFloat (of_float 0.9));
   ("latency", JFloat (of_float 0.002));
   ("model_type", JStr "good")].

(** * Properties *)

(** ** Order on Python numbers *)

Section Order.

Lemma Qltb_lt (a b : Q) : Qltb a b = true <-> (a < b)%Q.
Proof. unfold Qltb, Qlt. apply Z.ltb_lt. Qed.

Lemma Qltb_negb_le (a b : Q) : Qltb a b = negb (Qle_bool b a).
Proof. unfold Qltb, Qle_bool. apply Z.ltb_antisym. Qed.

(** [x <= y] excludes [x > y]. *)
Lemma leb_gtb (x y : num) : leb x y = true -> gtb x y = false.
Proof.
  unfold gtb.
  destruct x as [a| | |], y as [b| | |]; simpl; try congruence.
  rewrite Qltb_negb_le. now intros ->.
Qed.

(** Without NaN the order is total. *)
Lemma gtb_false_leb (x y : num) :
  x <> NaN -> y <> NaN -> gtb x y = false -> leb x y = true.
Proof.
  unfold gtb.
  destruct x as [a| | |], y as [b| | |]; simpl; try congruence.
  rewrite Qltb_negb_le. intros _ _ H. now apply negb_false_iff in H.
Qed.

Lemma leb_ltb_trans (x y z : num) :
  leb x y = true -> ltb y z = true -> ltb x z = true.
Proof.
  destruct x as [a| | |], y as [b| | |], z as [c| | |]; simpl;
    try congruence.
  rewrite Qle_bool_iff, !Qltb_lt. apply Qle_lt_trans.
Qed.

Lemma ltb_trans (x y z : num) :
  ltb x y = true -> ltb y z = true -> ltb x z = true.
Proof.
  destruct x as [a| | |], y as [b| | |], z as [c| | |]; simpl;
    try congruence.
  rewrite !Qltb_lt. apply Qlt_trans.
Qed.

Lemma ltb_irrefl (x : num) : ltb x x = false.
Proof.
  destruct x as [a| | |]; simpl; try reflexivity.
  unfold Qltb. apply Z.ltb_irrefl.
Qed.

(** [min(x, y)] never exceeds its first argument, NaN or not. *)
Lemma min_le_first (x y : num) : x <> NaN -> leb (PyNum.min x y) x = true.
Proof.
  intros Hx. unfold PyNum.min. destruct (ltb y x) eqn:E.
  - destruct y as [b| | |], x as [a| | |]; simpl in *; try congruence.
    apply Qle_bool_iff, Qlt_le_weak. now apply Qltb_lt.
  - destruct x as [a| | |]; simpl; try congruence.
    apply Qle_bool_iff, Qle_refl.
Qed.

(** Within its bound, [min(x, y)] is [y] up to [==]. *)
Lemma min_eq_second (x y : num) : leb y x = true -> eqb (PyNum.min x y) y = true.
Proof.
  unfold PyNum.min. destruct (ltb y x) eqn:E.
  - destruct y as [b| | |], x as [a| | |]; simpl in *; try congruence;
      intros _; apply Qeq_bool_iff; reflexivity.
  - destruct y as [b| | |], x as [a| | |]; simpl in *; try congruence.
    rewrite Qltb_negb_le in E. apply negb_false_iff in E.
    rewrite Qle_bool_iff in *. intros H. apply Qeq_bool_iff.
    now apply Qle_antisym.
Qed.

Lemma min_first (x y : num) : ltb y x = false -> PyNum.min x y = x.
Proof. unfold PyNum.min. now intros ->. Qed.

Lemma min_second (x y : num) : ltb y x = true -> PyNum.min x y = y.
Proof. unfold PyNum.min. now intros ->. Qed.

Lemma f_0_5_lt_f_0_75 : ltb f_0_5 f_0_75 = true.
Proof. reflexivity. Qed.

Lemma f_0_3_lt_f_0_7 : ltb f_0_3 f_0_7 = true.
Proof. reflexivity. Qed.

End Order.

(** The limit is where rounding to the nearest float leaves the floats. *)
Lemma float_limit_value : float_limit = (2 ^ 1024 - 2 ^ 970)%Z.
Proof. vm_compute. reflexivity. Qed.

Example too_large_examples :
  too_large (10 ^ 400) = true /\ too_large (- 10 ^ 400) = true /\
  too_large (2 ^ 1023) = false /\ too_large (float_limit - 1) = false /\
  too_large float_limit = true.
Proof. vm_compute. repeat split. Qed.

(** ** The monad *)

Section Monad.

Context {A B : Type}.

Lemma bind_ret (a : A) (k : A -> M B) : bind (ret a) k = k a.
Proof. unfold bind, ret. now destruct (k a). Qed.

Lemma bind_raise (e : exn) (k : A -> M B) : bind (raise e) k = raise e.
Proof. reflexivity. Qed.

Lemma try_raise (e : exn) (h : M A) : try_except (raise e) h = h.
Proof. unfold try_except, raise. now destruct h. Qed.

Lemma try_done (m h : M A) (a : A) :
  ending m = Done a -> try_except m h = m.
Proof. destruct m as [s [x|x]]; simpl; congruence. Qed.

End Monad.

Arguments bind : simpl never.
Arguments try_except : simpl never.
Arguments ret : simpl never.
Arguments raise : simpl never.
Arguments render : simpl never.

(** ** The confidence fallback *)

Section Fallback.

Variable result : prediction_result.

(** The two fallback branches are the same statements. *)
Lemma error_marker_is_except :
  error_marker_branch result = except_branch result.
Proof. reflexivity. Qed.

Lemma except_branch_done : ending (except_branch result) = Done tt.
Proof.
  unfold except_branch.
  destruct (gtb (confidence result) f_0_75);
    [|destruct (gtb (confidence result) f_0_5)]; reflexivity.
Qed.

Lemma except_branch_verdict :
  verdict_of (page (except_branch result))
  = Some (threshold_verdict (confidence result)).
Proof.
  unfold except_branch, threshold_verdict.
  destruct (gtb (confidence result) f_0_75);
    [|destruct (gtb (confidence result) f_0_5)]; reflexivity.
Qed.

(** On these replies the block is exactly a fallback branch. *)
Lemma confidence_fallback_run (r : reply) :
  confidence_fallback r ->
  model_health_risk result r = except_branch result.
Proof.
  intros [members Herr|e|]; unfold model_health_risk; simpl.
  - unfold py_in. rewrite !bind_ret, Herr. simpl negb. cbv iota.
    rewrite error_marker_is_except.
    apply try_done with (a := tt), except_branch_done.
  - apply try_raise.
  - rewrite bind_raise. apply try_raise.
Qed.

End Fallback.

Lemma except_branch_bars (result : prediction_result) :
  progress_bars (page (except_branch result)) = [confidence result].
Proof.
  unfold except_branch.
  destruct (gtb (confidence result) f_0_75);
    [|destruct (gtb (confidence result) f_0_5)]; reflexivity.
Qed.

(** C1.  With no usable failure-risk report (the body carries ["error"], the
    request raised, or the body does not decode) the block shows HEALTHY
    when the confidence is above 0.75, RISKY when it is above 0.5 and at
    most 0.75, CRITICAL when it is at most 0.5, with matching "Health
    Status" and "Risk Level" metrics; so 0.76 gives HEALTHY, 0.75 and 0.51
    give RISKY and 0.5 gives CRITICAL. *)
Theorem fallback_thresholds (result : prediction_result) (r : reply) :
  confidence_fallback r ->
  let c := confidence result in
  let v := verdict_of (page (model_health_risk result r)) in
  (gt c f_0_75 -> v = Some (fallback_verdict HEALTHY c "Healthy" "Low")) /\
  (gt c f_0_5 -> le c f_0_75 ->
   v = Some (fallback_verdict RISKY c "Risky" "Medium")) /\
  (le c f_0_5 -> v = Some (fallback_verdict CRITICAL c "Critical" "High")) /\
  (c = of_float 0.76 -> option_map risk_level v = Some HEALTHY) /\
  (c = of_float 0.75 -> option_map risk_level v = Some RISKY) /\
  (c = of_float 0.51 -> option_map risk_level v = Some RISKY) /\
  (c = of_float 0.5 -> option_map risk_level v = Some CRITICAL).
Proof.
  intros Hr c v. subst v.
  rewrite (confidence_fallback_run result r Hr), except_branch_verdict.
  fold c. unfold threshold_verdict, gt, le.
  repeat split.
  - now intros ->.
  - intros H5 H75. apply leb_gtb in H75. now rewrite H75, H5.
  - intros H5.
    assert (H75 : gtb c f_0_75 = false).
    { destruct (gtb c f_0_75) eqn:E; [|reflexivity].
      pose proof (leb_ltb_trans _ _ _ H5 f_0_5_lt_f_0_75) as H.
      pose proof (ltb_trans _ _ _ E H) as K.
      now rewrite ltb_irrefl in K. }
    apply leb_gtb in H5. now rewrite H75, H5.
  - now intros ->.
  - now intros ->.
  - now intros ->.
  - now intros ->.
Qed.

Lemma fallback_thresholds_witness :
  verdict_of
    (page (model_health_risk (sample_result 0.9) (Failed ConnectionError)))
  = Some (fallback_verdict HEALTHY (of_float 0.9) "Healthy" "Low")
  /\ verdict_of
       (page (model_health_risk (sample_result 0.5)
                (Response 200 (Some (JObj [("error", JNull)])))))
     = Some (fallback_verdict CRITICAL (of_float 0.5) "Critical" "High").
Proof.
  split.
  - apply (fallback_thresholds (sample_result 0.9) (Failed ConnectionError)
             (request_raised ConnectionError)).
    reflexivity.
  - apply (fallback_thresholds (sample_result 0.5)
             (Response 200 (Some (JObj [("error", JNull)])))
             (error_marker [("error", JNull)] eq_refl)).
    reflexivity.
Defined.

(** ** The telemetry branch *)

Lemma formattable_is_number (v : json) :
  formattable v = true -> is_number v = true.
Proof. destruct v; try discriminate; reflexivity. Qed.

Section Operations.

Variables (v : json) (digits : nat) (y : num).
Hypothesis Hnum : formattable v = true.

Lemma py_percent_number :
  py_percent digits v = ret (Percent digits (number_of v)).
Proof using Hnum.
  destruct v; simpl in *; try discriminate; try reflexivity.
  now destruct (too_large z).
Qed.

Lemma py_gt_number : py_gt v y = ret (gtb (number_of v) y).
Proof using Hnum.
  apply formattable_is_number in Hnum.
  unfold py_gt, is_number, number_of in *.
  destruct (as_number v); [reflexivity|discriminate].
Qed.

Lemma py_lt_number : py_lt v y = ret (ltb (number_of v) y).
Proof using Hnum.
  apply formattable_is_number in Hnum.
  unfold py_lt, is_number, number_of in *.
  destruct (as_number v); [reflexivity|discriminate].
Qed.

Lemma py_min_number : py_min y v = ret (PyNum.min y (number_of v)).
Proof using Hnum.
  apply formattable_is_number in Hnum.
  unfold py_min, is_number, number_of in *.
  destruct (as_number v); [reflexivity|discriminate].
Qed.

End Operations.

Lemma py_get_field (members : list (string * json)) (key : string)
  (default : json) :
  py_get (JObj members) key default = ret (field key members default).
Proof. reflexivity. Qed.

Section Telemetry.

Variable result : prediction_result.
Variable members : list (string * json).
Hypothesis Htyped : well_typed_report members = true.

Let d := degradation_of members.
Let overall_deg := number_of (field "overall_degradation" d (JInt 0)).
Let drop := number_of (field "confidence_drop" d (JInt 0)).
Let psi := number_of (field "psi_increase" d (JInt 0)).

(** On a well-typed report the telemetry branch runs to its end and
    renders [telemetry_page]. *)
Lemma telemetry_run :
  telemetry_branch result (JObj members)
  = (telemetry_page (field "risk" members (JStr "UNKNOWN"))
       overall_deg drop psi (confidence result), Done tt).
Proof using Htyped.
  subst overall_deg drop psi d.
  unfold well_typed_report, degradation_of in *.
  unfold telemetry_branch. rewrite !py_get_field, !bind_ret.
  destruct (field "degradation" members (JObj [])) as [| | | | | |dg];
    try discriminate.
  apply andb_prop in Htyped as [H12 Hpsi].
  apply andb_prop in H12 as [Hov Hdrop].
  rewrite !py_get_field, !bind_ret.
  rewrite !(py_percent_number _ _ Hov), (py_gt_number _ _ Hov), !bind_ret.
  rewrite (py_percent_number _ _ Hdrop), (py_percent_number _ _ Hpsi).
  set (ov := field "overall_degradation" dg (JInt 0)) in *.
  assert (Hmin :
    py_min f_1_0 (if gtb (number_of ov) i_0 then ov
                  else JFloat (confidence result))
    = ret (PyNum.min f_1_0 (if gtb (number_of ov) i_0 then number_of ov
                            else confidence result))).
  { destruct (gtb (number_of ov) i_0);
      [apply py_min_number, Hov|reflexivity]. }
  rewrite Hmin. unfold telemetry_page.
  destruct (eq_str (field "risk" members (JStr "UNKNOWN")) "HIGH");
    [|destruct (eq_str (field "risk" members (JStr "UNKNOWN")) "MEDIUM")];
    reflexivity.
Qed.

End Telemetry.

Section TelemetryBlock.

Variable result : prediction_result.
Variable members : list (string * json).
Hypothesis Hclean : dict_has "error" members = false.
Hypothesis Htyped : well_typed_report members = true.

(** A well-typed report without ["error"] is rendered by the telemetry
    branch, which ends normally. *)
Lemma telemetry_block_run :
  model_health_risk result (Response 200 (Some (JObj members)))
  = telemetry_branch result (JObj members).
Proof using Hclean Htyped.
  unfold model_health_risk. simpl.
  unfold py_in. rewrite !bind_ret, Hclean. simpl negb. cbv iota.
  apply try_done with (a := tt).
  now rewrite telemetry_run.
Qed.

End TelemetryBlock.

Lemma alerts_app (l1 l2 : list widget) :
  alerts (l1 ++ l2) = alerts l1 ++ alerts l2.
Proof.
  induction l1 as [|w l1 IH]; [reflexivity|].
  destruct w; simpl; now rewrite IH.
Qed.

Lemma progress_bars_app (l1 l2 : list widget) :
  progress_bars (l1 ++ l2) = progress_bars l1 ++ progress_bars l2.
Proof.
  induction l1 as [|w l1 IH]; [reflexivity|].
  destruct w; simpl; now rewrite IH.
Qed.

Lemma metrics_app (l1 l2 : list widget) :
  metrics (l1 ++ l2) = metrics l1 ++ metrics l2.
Proof.
  induction l1 as [|w l1 IH]; [reflexivity|].
  destruct w; simpl; now rewrite IH.
Qed.

(** What a telemetry page shows. *)
Lemma telemetry_page_risk (rl : json) (ov drop psi c : num) :
  displayed_risk (telemetry_page rl ov drop psi c) = Some (risk_of_report rl).
Proof.
  unfold telemetry_page, risk_of_report.
  destruct (eq_str rl "HIGH"); [|destruct (eq_str rl "MEDIUM")]; reflexivity.
Qed.

Lemma telemetry_page_bars (rl : json) (ov drop psi c : num) :
  progress_bars (telemetry_page rl ov drop psi c)
  = [PyNum.min f_1_0 (if gtb ov i_0 then ov else c)].
Proof.
  unfold telemetry_page.
  destruct (eq_str rl "HIGH"); [|destruct (eq_str rl "MEDIUM")]; reflexivity.
Qed.

Lemma telemetry_page_metrics (rl : json) (ov drop psi c : num) :
  metrics (telemetry_page rl ov drop psi c)
  = [("Confidence Drop", Formatted [Percent 2 drop]);
     ("PSI Increase", Formatted [Percent 2 psi]);
     ("Risk Level", Raw rl)].
Proof.
  unfold telemetry_page.
  destruct (eq_str rl "HIGH"); [|destruct (eq_str rl "MEDIUM")]; reflexivity.
Qed.

(** ** Reports the format refuses *)

Lemma not_number_unformattable (v : json) :
  is_number v = false -> formattable v = false.
Proof. destruct v; try discriminate; reflexivity. Qed.

(** The format raises on everything else: [OverflowError] on an int too
    large, [ValueError] on a string, [TypeError] otherwise. *)
Lemma py_percent_unformattable (digits : nat) (v : json) :
  formattable v = false -> exists e, py_percent digits v = raise e.
Proof.
  destruct v; try discriminate; simpl; intros H;
    try (eexists; reflexivity).
  destruct (too_large z); [eexists; reflexivity|discriminate].
Qed.

Lemma py_percent_not_number (digits : nat) (v : json) :
  is_number v = false -> exists e, py_percent digits v = raise e.
Proof.
  intros H. now apply py_percent_unformattable, not_number_unformattable.
Qed.

Lemma alert_block_raises (k : alert) (banner : string) (v : json) (e : exn) :
  py_percent 1 v = raise e ->
  (render (Alert k [Lit banner]) ;;
   d <- py_percent 1 v ;;
   render (Alert k [Lit "Degradation: "; d; Lit " from baseline"]))
  = ([Alert k [Lit banner]], Raised e).
Proof. now intros ->. Qed.

Section IllTyped.

Variable result : prediction_result.
Variable members : list (string * json).

(** The branch stops at the first [.get] on a [degradation] that is not an
    object. *)
Lemma telemetry_degradation_not_object :
  is_object (field "degradation" members (JObj [])) = false ->
  telemetry_branch result (JObj members) = ([], Raised AttributeError).
Proof.
  intros H. unfold telemetry_branch. rewrite !py_get_field, !bind_ret.
  destruct (field "degradation" members (JObj [])); try discriminate;
    reflexivity.
Qed.

(** It stops after its banner on an [overall_degradation] that is not a
    number. *)
Lemma telemetry_overall_unformattable (d : list (string * json)) :
  field "degradation" members (JObj []) = JObj d ->
  formattable (field "overall_degradation" d (JInt 0)) = false ->
  exists e,
    telemetry_branch result (JObj members)
    = ([telemetry_banner (field "risk" members (JStr "UNKNOWN"))], Raised e).
Proof.
  intros Hd Hov. unfold telemetry_branch.
  rewrite !py_get_field, !bind_ret, Hd, py_get_field, bind_ret.
  destruct (py_percent_unformattable 1 _ Hov) as [e He]. exists e.
  unfold telemetry_banner.
  destruct (eq_str _ "HIGH"); [|destruct (eq_str _ "MEDIUM")];
    rewrite (alert_block_raises _ _ _ _ He); reflexivity.
Qed.

Lemma telemetry_overall_not_number (d : list (string * json)) :
  field "degradation" members (JObj []) = JObj d ->
  is_number (field "overall_degradation" d (JInt 0)) = false ->
  exists e,
    telemetry_branch result (JObj members)
    = ([telemetry_banner (field "risk" members (JStr "UNKNOWN"))], Raised e).
Proof.
  intros Hd Hov.
  apply (telemetry_overall_unformattable d Hd).
  now apply not_number_unformattable.
Qed.

(** The telemetry branch ends normally only on a well-typed report. *)
Lemma telemetry_done_well_typed :
  ending (telemetry_branch result (JObj members)) = Done tt ->
  well_typed_report members = true.
Proof.
  unfold well_typed_report.
  destruct (field "degradation" members (JObj [])) as [| | | | | |d] eqn:Hd;
    try (rewrite telemetry_degradation_not_object by (now rewrite Hd);
         discriminate).
  destruct (formattable (field "overall_degradation" d (JInt 0))) eqn:Hov.
  2:{ destruct (telemetry_overall_unformattable d Hd Hov) as [e ->].
      discriminate. }
  unfold telemetry_branch.
  rewrite !py_get_field, !bind_ret, Hd, !py_get_field, !bind_ret.
  rewrite !(py_percent_number _ _ Hov), (py_gt_number _ _ Hov), !bind_ret.
  set (ov := field "overall_degradation" d (JInt 0)) in *.
  assert (Hmin : exists bar,
    py_min f_1_0 (if gtb (number_of ov) i_0 then ov
                  else JFloat (confidence result)) = ret bar).
  { destruct (gtb (number_of ov) i_0); eexists;
      [apply py_min_number, Hov|reflexivity]. }
  destruct Hmin as [bar ->]. rewrite bind_ret.
  destruct (formattable (field "confidence_drop" d (JInt 0))) eqn:Hdrop.
  2:{ destruct (py_percent_unformattable 2 _ Hdrop) as [e ->].
      destruct (eq_str _ "HIGH"); [|destruct (eq_str _ "MEDIUM")];
        discriminate. }
  destruct (formattable (field "psi_increase" d (JInt 0))) eqn:Hpsi;
    [reflexivity|].
  rewrite (py_percent_number _ _ Hdrop).
  destruct (py_percent_unformattable 2 _ Hpsi) as [e ->].
  destruct (eq_str _ "HIGH"); [|destruct (eq_str _ "MEDIUM")];
    discriminate.
Qed.

(** With a formattable [overall_degradation] the branch renders its banner
    and its bar before a [confidence_drop] or [psi_increase] that the
    format refuses stops it. *)
Lemma telemetry_late_raise (d : list (string * json)) :
  field "degradation" members (JObj []) = JObj d ->
  formattable (field "overall_degradation" d (JInt 0)) = true ->
  formattable (field "confidence_drop" d (JInt 0))
  && formattable (field "psi_increase" d (JInt 0)) = false ->
  exists e shown,
    telemetry_branch result (JObj members) = (shown, Raised e) /\
    progress_bars shown
    = [PyNum.min f_1_0
         (if gtb (number_of (field "overall_degradation" d (JInt 0))) i_0
          then number_of (field "overall_degradation" d (JInt 0))
          else confidence result)] /\
    displayed_risk shown
    = Some (risk_of_report (field "risk" members (JStr "UNKNOWN"))).
Proof.
  intros Hd Hov Hlate. unfold telemetry_branch.
  rewrite !py_get_field, !bind_ret, Hd, !py_get_field, !bind_ret.
  rewrite !(py_percent_number _ _ Hov), (py_gt_number _ _ Hov), !bind_ret.
  set (ov := field "overall_degradation" d (JInt 0)) in *.
  assert (Hmin :
    py_min f_1_0 (if gtb (number_of ov) i_0 then ov
                  else JFloat (confidence result))
    = ret (PyNum.min f_1_0 (if gtb (number_of ov) i_0 then number_of ov
                            else confidence result))).
  { destruct (gtb (number_of ov) i_0);
      [apply py_min_number, Hov|reflexivity]. }
  rewrite Hmin, bind_ret. unfold risk_of_report.
  destruct (formattable (field "confidence_drop" d (JInt 0))) eqn:Hdrop.
  - simpl in Hlate. rewrite (py_percent_number _ _ Hdrop).
    destruct (py_percent_unformattable 2 _ Hlate) as [e ->]. exists e.
    destruct (eq_str _ "HIGH"); [|destruct (eq_str _ "MEDIUM")];
      eexists; split; [reflexivity|split; reflexivity
                      |reflexivity|split; reflexivity
                      |reflexivity|split; reflexivity].
  - destruct (py_percent_unformattable 2 _ Hdrop) as [e ->]. exists e.
    destruct (eq_str _ "HIGH"); [|destruct (eq_str _ "MEDIUM")];
      eexists; split; [reflexivity|split; reflexivity
                      |reflexivity|split; reflexivity
                      |reflexivity|split; reflexivity].
Qed.

End IllTyped.

(** When the telemetry branch raises, the handler appends the confidence
    fallback to what the branch had rendered. *)
Lemma telemetry_block_raised (result : prediction_result)
  (members : list (string * json)) (shown : list widget) (e : exn) :
  dict_has "error" members = false ->
  telemetry_branch result (JObj members) = (shown, Raised e) ->
  model_health_risk result (Response 200 (Some (JObj members)))
  = (shown ++ page (except_branch result), Done tt).
Proof.
  intros Hclean Hraised. unfold model_health_risk. simpl.
  unfold py_in. rewrite !bind_ret, Hclean. simpl negb. cbv iota.
  rewrite Hraised. unfold try_except, page.
  pose proof (except_branch_done result) as Hdone.
  destruct (except_branch result) as [shown2 r2]. simpl in *.
  now subst r2.
Qed.

(** The verdict a telemetry page shows. *)
Lemma telemetry_page_verdict (rl : json) (ov drop psi c : num) :
  verdict_of (telemetry_page rl ov drop psi c)
  = Some {| risk_level := risk_of_report rl;
            progress_value :=
              PyNum.min f_1_0 (if gtb ov i_0 then ov else c);
            breakdown :=
              [("Confidence Drop", Formatted [Percent 2 drop]);
               ("PSI Increase", Formatted [Percent 2 psi]);
               ("Risk Level", Raw rl)] |}.
Proof.
  unfold telemetry_page, risk_of_report.
  destruct (eq_str rl "HIGH"); [|destruct (eq_str rl "MEDIUM")]; reflexivity.
Qed.

(** C2, as the code has it.  A report obtained with status 200 whose body
    is an object without the ["error"] key and whose degradation fields,
    where present, are numbers that the [%] format accepts (floats,
    booleans, ints that a float can hold) is rendered by the telemetry
    branch, and for every prediction the risk level shown is a function of
    the report's [risk] field alone: HIGH gives CRITICAL, MEDIUM gives
    RISKY, anything else - LOW, UNKNOWN, an absent field - gives
    HEALTHY. *)
Theorem telemetry_risk_level (result : prediction_result)
  (members : list (string * json)) :
  dict_has "error" members = false ->
  well_typed_report members = true ->
  let run := model_health_risk result (Response 200 (Some (JObj members))) in
  let risk_field := field "risk" members (JStr "UNKNOWN") in
  run = telemetry_branch result (JObj members) /\
  ending run = Done tt /\
  displayed_risk (page run) = Some (risk_of_report risk_field) /\
  (risk_field = JStr "HIGH" -> displayed_risk (page run) = Some CRITICAL) /\
  (risk_field = JStr "MEDIUM" -> displayed_risk (page run) = Some RISKY) /\
  (risk_field = JStr "LOW" -> displayed_risk (page run) = Some HEALTHY) /\
  (risk_field = JStr "UNKNOWN" -> displayed_risk (page run) = Some HEALTHY) /\
  (dict_lookup "risk" members = None ->
   displayed_risk (page run) = Some HEALTHY) /\
  (eq_str risk_field "HIGH" = false -> eq_str risk_field "MEDIUM" = false ->
   displayed_risk (page run) = Some HEALTHY).
Proof.
  intros Hclean Htyped run risk_field. subst run.
  rewrite (telemetry_block_run result members Hclean Htyped).
  split; [reflexivity|].
  rewrite (telemetry_run result members Htyped). simpl page. simpl ending.
  split; [reflexivity|].
  rewrite telemetry_page_risk. fold risk_field.
  repeat split.
  - now intros ->.
  - now intros ->.
  - now intros ->.
  - now intros ->.
  - intros Hnone. subst risk_field. unfold field. now rewrite Hnone.
  - intros H1 H2. unfold risk_of_report. now rewrite H1, H2.
Qed.

Lemma telemetry_risk_level_witness :
  displayed_risk
    (page (model_health_risk (sample_result 0.99)
             (Response 200 (Some (JObj high_risk_report)))))
  = Some CRITICAL.
Proof.
  apply (telemetry_risk_level (sample_result 0.99) high_risk_report
           eq_refl eq_refl).
  reflexivity.
Defined.

(** C2 as stated fails on a number the format refuses: with risk HIGH and
    an overall degradation of 10^400, an int above 0, the red banner is
    followed by the confidence fallback, green at confidence 0.9. *)
Lemma telemetry_risk_level_overflow :
  dict_has "error" huge_degradation_report = false /\
  field "risk" huge_degradation_report (JStr "UNKNOWN") = JStr "HIGH" /\
  field "overall_degradation" (degradation_of huge_degradation_report)
    (JInt 0) = JInt (10 ^ 400) /\
  gtb (of_int (10 ^ 400)) i_0 = true /\
  alerts
    (page (model_health_risk (sample_result 0.9)
             (Response 200 (Some (JObj huge_degradation_report)))))
  = [error; success] /\
  displayed_risk
    (page (model_health_risk (sample_result 0.9)
             (Response 200 (Some (JObj huge_degradation_report)))))
  = None.
Proof. vm_compute. repeat split. Qed.

(** C3, as the code has it.  In the telemetry branch, on a report whose
    degradation numbers the [%] format accepts, the progress bar is
    [min(1.0, overall_degradation)] when the overall degradation is above
    0 - the degradation itself up to 1.0, and 1.0 beyond - and
    [min(1.0, confidence)] otherwise, in particular when the degradation is
    0; so 0.42 gives 0.42 and 0.0 gives the confidence.  When the format
    refuses the overall degradation the only bar is the handler's, the
    confidence as it is; when it refuses [confidence_drop] or
    [psi_increase] the handler's bar follows the telemetry bar. *)
Theorem telemetry_progress (result : prediction_result)
  (members : list (string * json)) :
  dict_has "error" members = false ->
  let ov := field "overall_degradation" (degradation_of members) (JInt 0) in
  let d := number_of ov in
  let c := confidence result in
  let bars :=
    progress_bars
      (page (model_health_risk result (Response 200 (Some (JObj members))))) in
  (well_typed_report members = true ->
   bars = [PyNum.min f_1_0 (if gtb d i_0 then d else c)] /\
   (gt d i_0 -> le d f_1_0 -> exists v, bars = [v] /\ eqb v d = true) /\
   (gt d i_0 -> lt d f_1_0 -> bars = [d]) /\
   (gt d i_0 -> ltb d f_1_0 = false -> bars = [f_1_0]) /\
   (gtb d i_0 = false -> le c f_1_0 ->
    exists v, bars = [v] /\ eqb v c = true) /\
   (gtb d i_0 = false -> lt c f_1_0 -> bars = [c]) /\
   (gtb d i_0 = false -> ltb c f_1_0 = false -> bars = [f_1_0]) /\
   (d = of_float 0.42 -> bars = [of_float 0.42]) /\
   (d = of_float 0.0 -> lt c f_1_0 -> bars = [c])) /\
  (is_object (field "degradation" members (JObj [])) = true ->
   formattable ov = false -> bars = [c]) /\
  (is_object (field "degradation" members (JObj [])) = true ->
   formattable ov = true -> well_typed_report members = false ->
   bars = [PyNum.min f_1_0 (if gtb d i_0 then d else c); c]).
Proof.
  intros Hclean ov d c bars. split; [|split].
  - intros Htyped. subst bars.
    rewrite (telemetry_block_run result members Hclean Htyped).
    rewrite (telemetry_run result members Htyped). simpl page.
    rewrite telemetry_page_bars. fold ov d c. unfold gt, lt, le.
    repeat split.
    + intros -> Hle. eexists. split; [reflexivity|]. now apply min_eq_second.
    + intros -> Hlt. now rewrite min_second.
    + intros -> Hge. now rewrite min_first.
    + intros -> Hle. eexists. split; [reflexivity|]. now apply min_eq_second.
    + intros -> Hlt. now rewrite min_second.
    + intros -> Hge. now rewrite min_first.
    + now intros ->.
    + intros -> Hlt. change (gtb (of_float 0.0) i_0) with false. cbv iota.
      now rewrite min_second.
  - subst bars d ov. unfold degradation_of.
    destruct (field "degradation" members (JObj [])) as [| | | | | |dg] eqn:Hd;
      try discriminate.
    intros _ Hov.
    destruct (telemetry_overall_unformattable result members dg Hd Hov)
      as [e He].
    rewrite (telemetry_block_raised result members _ e Hclean He).
    simpl page. unfold telemetry_banner.
    destruct (eq_str _ "HIGH"); [|destruct (eq_str _ "MEDIUM")];
      simpl; now rewrite except_branch_bars.
  - subst bars d ov. unfold well_typed_report, degradation_of.
    destruct (field "degradation" members (JObj [])) as [| | | | | |dg] eqn:Hd;
      try discriminate.
    intros _ Hov Hlate. rewrite Hov in Hlate. simpl in Hlate.
    destruct (telemetry_late_raise result members dg Hd Hov Hlate)
      as (e & shown & He & Hbars & _).
    rewrite (telemetry_block_raised result members _ e Hclean He).
    simpl page. now rewrite progress_bars_app, Hbars, except_branch_bars.
Qed.

Lemma telemetry_progress_witness :
  progress_bars
    (page (model_health_risk (sample_result 0.4)
             (Response 200 (Some (JObj (degradation_report 0.35))))))
  = [of_float 0.35]
  /\ progress_bars
       (page (model_health_risk (sample_result 0.9)
                (Response 200 (Some (JObj huge_degradation_report)))))
     = [of_float 0.9].
Proof.
  split.
  - exact (proj1 (proj1 (telemetry_progress (sample_result 0.4)
                           (degradation_report 0.35) eq_refl) eq_refl)).
  - apply (proj1 (proj2 (telemetry_progress (sample_result 0.9)
                           huge_degradation_report eq_refl))).
    + reflexivity.
    + vm_compute. reflexivity.
Defined.

(** C3 as stated fails above 1: with an overall degradation of 1.5, which
    is greater than 0, the bar is 1.0 and not 1.5. *)
Lemma telemetry_progress_overshoot :
  gtb (of_float 1.5) i_0 = true /\
  field "overall_degradation" (degradation_of overshoot_report) (JInt 0)
  = JFloat (of_float 1.5) /\
  progress_bars
    (page (model_health_risk (sample_result 0.5)
             (Response 200 (Some (JObj overshoot_report)))))
  = [of_float 1.0] /\
  eqb (of_float 1.0) (of_float 1.5) = false.
Proof. repeat split. Qed.

(** ** The two fallback paths *)

Lemma dict_lookup_has (key : string) (members : list (string * json))
  (v : json) : dict_lookup key members = Some v -> dict_has key members = true.
Proof. unfold dict_has. now intros ->. Qed.

(** A body with the ["error"] key is rendered by the [else] branch. *)
Lemma error_marker_run (result : prediction_result)
  (members : list (string * json)) :
  dict_has "error" members = true ->
  model_health_risk result (Response 200 (Some (JObj members)))
  = error_marker_branch result.
Proof.
  intros Herr. unfold model_health_risk. simpl.
  unfold py_in. rewrite !bind_ret, Herr. simpl negb. cbv iota.
  apply try_done with (a := tt).
  rewrite error_marker_is_except. apply except_branch_done.
Qed.

(** A request that raises is rendered by the handler. *)
Lemma request_raised_run (result : prediction_result) (e : exn) :
  model_health_risk result (Failed e) = except_branch result.
Proof. apply try_raise. Qed.

(** C4.  At the same confidence, a report whose body carries ["error"]
    (rendered by the [else] branch, lines 260-278) and a request that
    raised (rendered by the [except] handler, lines 280-298) give the same
    page, hence the same risk level, progress value and metrics. *)
Theorem fallback_paths_agree (result : prediction_result)
  (members : list (string * json)) (e : exn) :
  dict_has "error" members = true ->
  let with_marker :=
    model_health_risk result (Response 200 (Some (JObj members))) in
  let raised := model_health_risk result (Failed e) in
  with_marker = error_marker_branch result /\
  raised = except_branch result /\
  with_marker = raised /\
  verdict_of (page with_marker) = verdict_of (page raised) /\
  verdict_of (page raised) = Some (threshold_verdict (confidence result)).
Proof.
  intros Herr with_marker raised. subst with_marker raised.
  rewrite (error_marker_run result members Herr), request_raised_run.
  rewrite error_marker_is_except, except_branch_verdict.
  repeat split.
Qed.

Lemma fallback_paths_agree_witness :
  model_health_risk (sample_result 0.6)
    (Response 200 (Some (JObj (error_report (JStr "Insufficient data")))))
  = model_health_risk (sample_result 0.6) (Failed ConnectionError).
Proof.
  apply (fallback_paths_agree (sample_result 0.6)
           (error_report (JStr "Insufficient data")) ConnectionError eq_refl).
Defined.

(** C6.  Whatever value the ["error"] key of a decoded body holds - null,
    an empty string, anything - the body is rendered by the
    confidence-only [else] branch, and nothing else of the body is read. *)
Theorem error_key_selects_fallback (result : prediction_result)
  (members : list (string * json)) (v : json) :
  dict_lookup "error" members = Some v ->
  let run := model_health_risk result (Response 200 (Some (JObj members))) in
  run = error_marker_branch result /\
  ending run = Done tt /\
  verdict_of (page run) = Some (threshold_verdict (confidence result)).
Proof.
  intros Hv run. subst run.
  rewrite (error_marker_run result members (dict_lookup_has _ _ _ Hv)).
  rewrite error_marker_is_except, except_branch_done, except_branch_verdict.
  repeat split.
Qed.

Lemma error_key_selects_fallback_witness :
  model_health_risk (sample_result 0.9)
    (Response 200 (Some (JObj (error_report JNull))))
  = error_marker_branch (sample_result 0.9)
  /\ model_health_risk (sample_result 0.9)
       (Response 200 (Some (JObj (error_report (JStr "")))))
     = error_marker_branch (sample_result 0.9).
Proof.
  split.
  - apply (error_key_selects_fallback (sample_result 0.9)
             (error_report JNull) JNull eq_refl).
  - apply (error_key_selects_fallback (sample_result 0.9)
             (error_report (JStr "")) (JStr "") eq_refl).
Defined.

(** ** Pages of composed blocks *)

Section Pages.

Context {A B : Type}.

Lemma page_bind (m : M A) (k : A -> M B) :
  page (bind m k)
  = page m ++ match ending m with Done a => page (k a) | Raised _ => [] end.
Proof.
  destruct m as [s [a|e]]; unfold bind, page, ending; simpl.
  - now destruct (k a).
  - now rewrite app_nil_r.
Qed.

Lemma ending_bind (m : M A) (k : A -> M B) :
  ending (bind m k)
  = match ending m with Done a => ending (k a) | Raised e => Raised e end.
Proof.
  destruct m as [s [a|e]]; unfold bind, page, ending; simpl.
  - now destruct (k a).
  - reflexivity.
Qed.

Lemma page_try (m h : M A) :
  page (try_except m h)
  = page m ++ match ending m with Done _ => [] | Raised _ => page h end.
Proof.
  destruct m as [s [a|e]]; unfold try_except, page, ending; simpl.
  - now rewrite app_nil_r.
  - now destruct h.
Qed.

Lemma ending_try (m h : M A) :
  ending (try_except m h)
  = match ending m with Done a => Done a | Raised _ => ending h end.
Proof.
  destruct m as [s [a|e]]; unfold try_except, page, ending; simpl.
  - reflexivity.
  - now destruct h.
Qed.

End Pages.

(** The Python operations render nothing. *)
Lemma page_py_get (d : json) (key : string) (default : json) :
  page (py_get d key default) = [].
Proof. now destruct d. Qed.

Lemma page_py_percent (digits : nat) (v : json) :
  page (py_percent digits v) = [].
Proof.
  destruct v; try reflexivity. simpl. now destruct (too_large z).
Qed.

Lemma page_py_gt (v : json) (y : num) : page (py_gt v y) = [].
Proof. unfold py_gt. now destruct (as_number v). Qed.

Lemma page_py_min (x : num) (v : json) : page (py_min x v) = [].
Proof. unfold py_min. now destruct (as_number v). Qed.

(** ** Every decoded or failed report gets a verdict *)

Lemma has_alert_app_l (l1 l2 : list widget) :
  has_alert l1 -> has_alert (l1 ++ l2).
Proof.
  intros (k & rest & H). exists k, (rest ++ alerts l2).
  now rewrite alerts_app, H.
Qed.

Section Totality.

Variable result : prediction_result.

Lemma except_branch_alert : has_alert (page (except_branch result)).
Proof.
  unfold except_branch, has_alert.
  destruct (gtb (confidence result) f_0_75);
    [|destruct (gtb (confidence result) f_0_5)];
    eexists; eexists; reflexivity.
Qed.

(** The telemetry branch either raises before rendering anything or
    renders its alert. *)
Lemma telemetry_alert_or_early_raise (risk_data : json) :
  (exists e, telemetry_branch result risk_data = ([], Raised e))
  \/ has_alert (page (telemetry_branch result risk_data)).
Proof.
  destruct risk_data as [| | | | | |members];
    try (left; eexists; reflexivity).
  unfold telemetry_branch. rewrite !py_get_field, !bind_ret.
  destruct (field "degradation" members (JObj [])) as [| | | | | |d];
    try (left; eexists; reflexivity).
  right. rewrite py_get_field, bind_ret.
  rewrite page_bind. apply has_alert_app_l.
  destruct (eq_str _ "HIGH"); [|destruct (eq_str _ "MEDIUM")];
    rewrite page_bind; apply has_alert_app_l;
    eexists; eexists; reflexivity.
Qed.

Lemma handled_alert (m : M unit) :
  (exists e, m = ([], Raised e)) \/ has_alert (page m) ->
  has_alert (page (try_except m (except_branch result))).
Proof.
  intros [[e ->]|H]; rewrite page_try.
  - apply except_branch_alert.
  - now apply has_alert_app_l.
Qed.

Lemma handled_done (m : M unit) :
  ending (try_except m (except_branch result)) = Done tt.
Proof.
  rewrite ending_try. destruct (ending m) as [[]|e]; [reflexivity|].
  apply except_branch_done.
Qed.

(** Whatever the body of a 200 response is, and whatever a failed request
    raised, the block ends normally and shows an alert. *)
Lemma health_block_total (r : reply) :
  match r with Failed _ => True | Response status_code _ => status_code = 200%Z end ->
  ending (model_health_risk result r) = Done tt
  /\ has_alert (page (model_health_risk result r)).
Proof.
  intros Hr. unfold model_health_risk. split; [apply handled_done|].
  apply handled_alert.
  destruct r as [e|status_code [v|]]; [left; now exists e|subst; simpl..].
  - rewrite bind_ret.
    destruct v as [| | | |s|items|members]; try (left; eexists; reflexivity);
      unfold py_in; rewrite bind_ret;
      match goal with |- context [negb ?b] => destruct b end; simpl negb;
      cbv iota; try apply telemetry_alert_or_early_raise;
      right; rewrite error_marker_is_except; apply except_branch_alert.
  - left. eexists. reflexivity.
Qed.

End Totality.

Lemma has_bar_app_l (l1 l2 : list widget) : has_bar l1 -> has_bar (l1 ++ l2).
Proof.
  intros (v & rest & H). exists v, (rest ++ progress_bars l2).
  now rewrite progress_bars_app, H.
Qed.

Lemma has_bar_app_r (l1 l2 : list widget) :
  progress_bars l1 = [] -> has_bar l2 -> has_bar (l1 ++ l2).
Proof.
  intros H1 (v & rest & H). exists v, rest.
  now rewrite progress_bars_app, H1, H.
Qed.

Section Bars.

Context {A B : Type}.

Lemma ending_bind_inv (m : M A) (k : A -> M B) (b : B) :
  ending (bind m k) = Done b ->
  exists a, ending m = Done a /\ ending (k a) = Done b.
Proof.
  rewrite ending_bind. destruct (ending m) as [a|e]; [|discriminate].
  intros H. now exists a.
Qed.

(** A block that ends normally shows a bar when its first step shows none
    and its continuation shows one. *)
Lemma has_bar_bind (m : M A) (k : A -> M B) (b : B) :
  ending (bind m k) = Done b ->
  progress_bars (page m) = [] ->
  (forall a, ending (k a) = Done b -> has_bar (page (k a))) ->
  has_bar (page (bind m k)).
Proof.
  intros H Hm Hk. apply ending_bind_inv in H as (a & Ha & Hb).
  rewrite page_bind, Ha. apply has_bar_app_r; auto.
Qed.

End Bars.

Ltac skip_step :=
  let H := fresh "H" in
  intros H; apply (has_bar_bind _ _ _ H); clear H; [|intros ?].

Section TotalityBars.

Variable result : prediction_result.

Lemma except_branch_bar : has_bar (page (except_branch result)).
Proof.
  unfold except_branch, has_bar.
  destruct (gtb (confidence result) f_0_75);
    [|destruct (gtb (confidence result) f_0_5)];
    eexists; eexists; reflexivity.
Qed.

Lemma alert_block_no_bar (k : alert) (banner : string) (v : json) :
  progress_bars
    (page (render (Alert k [Lit banner]) ;;
           d <- py_percent 1 v ;;
           render (Alert k [Lit "Degradation: "; d; Lit " from baseline"])))
  = [].
Proof.
  destruct v; try reflexivity. simpl py_percent.
  now destruct (too_large z).
Qed.

(** A telemetry branch that ends normally has rendered its bar. *)
Lemma telemetry_done_bar (risk_data : json) :
  ending (telemetry_branch result risk_data) = Done tt ->
  has_bar (page (telemetry_branch result risk_data)).
Proof.
  unfold telemetry_branch.
  skip_step; [now rewrite page_py_get|].
  skip_step; [now rewrite page_py_get|].
  skip_step; [now rewrite page_py_get|].
  skip_step.
  { destruct (eq_str _ "HIGH"); [|destruct (eq_str _ "MEDIUM")];
      apply alert_block_no_bar. }
  skip_step; [now rewrite page_py_gt|].
  skip_step; [now rewrite page_py_min|].
  intros _. rewrite page_bind. apply has_bar_app_l.
  eexists; eexists; reflexivity.
Qed.

Lemma handled_bar (m : M unit) :
  (ending m = Done tt -> has_bar (page m)) ->
  has_bar (page (try_except m (except_branch result))).
Proof.
  intros H. rewrite page_try. destruct (ending m) as [[]|e] eqn:E.
  - rewrite app_nil_r. now apply H.
  - destruct (progress_bars (page m)) as [|v rest] eqn:Hb.
    + apply has_bar_app_r; [assumption|apply except_branch_bar].
    + apply has_bar_app_l. now exists v, rest.
Qed.

(** Whatever the body of a 200 response is, and whatever a failed request
    raised, the block shows a progress bar. *)
Lemma health_block_bar (r : reply) :
  match r with Failed _ => True | Response status_code _ => status_code = 200%Z end ->
  has_bar (page (model_health_risk result r)).
Proof.
  intros Hr. unfold model_health_risk. apply handled_bar.
  destruct r as [e|status_code [v|]]; [discriminate|subst; simpl..].
  - rewrite bind_ret.
    destruct v as [| | | |s|items|members]; try discriminate;
      unfold py_in; rewrite bind_ret;
      match goal with |- context [negb ?b] => destruct b end; simpl negb;
      cbv iota; try apply telemetry_done_bar;
      intros _; rewrite error_marker_is_except; apply except_branch_bar.
  - discriminate.
Qed.

End TotalityBars.

(** C7, as the code has it.  A report without ["error"] whose fields are
    missing, and whose present degradation fields are numbers that the [%]
    format accepts, is rendered with defaults and without failing: an
    absent [risk] reads as ["UNKNOWN"], an absent [degradation] as an empty
    object, and absent [overall_degradation], [confidence_drop] and
    [psi_increase] as 0, and the page shows one verdict.  Whatever the body
    of the response is, the block ends normally with at least one alert
    and one progress bar on the page. *)
Theorem missing_fields_default (result : prediction_result)
  (members : list (string * json)) :
  dict_has "error" members = false ->
  well_typed_report members = true ->
  let run := model_health_risk result (Response 200 (Some (JObj members))) in
  let d := degradation_of members in
  let rl := field "risk" members (JStr "UNKNOWN") in
  let ov := number_of (field "overall_degradation" d (JInt 0)) in
  let drop := number_of (field "confidence_drop" d (JInt 0)) in
  let psi := number_of (field "psi_increase" d (JInt 0)) in
  let c := confidence result in
  run = (telemetry_page rl ov drop psi c, Done tt) /\
  verdict_of (page run)
  = Some {| risk_level := risk_of_report rl;
            progress_value :=
              PyNum.min f_1_0 (if gtb ov i_0 then ov else c);
            breakdown :=
              [("Confidence Drop", Formatted [Percent 2 drop]);
               ("PSI Increase", Formatted [Percent 2 psi]);
               ("Risk Level", Raw rl)] |} /\
  (dict_lookup "risk" members = None ->
   page run = telemetry_page (JStr "UNKNOWN") ov drop psi c) /\
  (dict_lookup "degradation" members = None ->
   page run = telemetry_page rl i_0 i_0 i_0 c) /\
  (dict_lookup "overall_degradation" d = None ->
   page run = telemetry_page rl i_0 drop psi c) /\
  (dict_lookup "confidence_drop" d = None ->
   page run = telemetry_page rl ov i_0 psi c) /\
  (dict_lookup "psi_increase" d = None ->
   page run = telemetry_page rl ov drop i_0 c) /\
  (forall body : option json,
     let any := model_health_risk result (Response 200 body) in
     ending any = Done tt /\ has_alert (page any) /\ has_bar (page any)).
Proof.
  intros Hclean Htyped run d rl ov drop psi c.
  assert (Hrun : run = (telemetry_page rl ov drop psi c, Done tt)).
  { subst run. rewrite (telemetry_block_run result members Hclean Htyped).
    apply (telemetry_run result members Htyped). }
  rewrite Hrun. simpl page.
  split; [reflexivity|]. split; [apply telemetry_page_verdict|].
  repeat split.
  - intros H. subst rl. unfold field. now rewrite H.
  - intros H. subst ov drop psi d. unfold degradation_of, field.
    now rewrite H.
  - intros H. subst ov. unfold field at 1. now rewrite H.
  - intros H. subst drop. unfold field at 1. now rewrite H.
  - intros H. subst psi. unfold field at 1. now rewrite H.
  - now apply health_block_total.
  - now apply health_block_total.
  - now apply health_block_bar.
Qed.

Lemma missing_fields_default_witness :
  model_health_risk (sample_result 0.8) (Response 200 (Some (JObj [])))
  = (telemetry_page (JStr "UNKNOWN") i_0 i_0 i_0 (of_float 0.8), Done tt).
Proof.
  apply (missing_fields_default (sample_result 0.8) [] eq_refl eq_refl).
Defined.

(** C7 as stated fails on a number the format refuses: a report without
    [risk], [confidence_drop] and [psi_increase] whose overall degradation
    is 10^400 gets the green banner of the default ["UNKNOWN"], then the
    format raises and the handler adds the fallback, red at confidence
    0.4: two alerts and no single verdict. *)
Lemma missing_fields_overflow :
  dict_has "error" huge_unlabelled_report = false /\
  dict_lookup "risk" huge_unlabelled_report = None /\
  dict_lookup "confidence_drop" (degradation_of huge_unlabelled_report)
  = None /\
  dict_lookup "psi_increase" (degradation_of huge_unlabelled_report)
  = None /\
  alerts
    (page (model_health_risk (sample_result 0.4)
             (Response 200 (Some (JObj huge_unlabelled_report)))))
  = [success; error] /\
  verdict_of
    (page (model_health_risk (sample_result 0.4)
             (Response 200 (Some (JObj huge_unlabelled_report)))))
  = None /\
  model_health_risk (sample_result 0.4)
    (Response 200 (Some (JObj huge_unlabelled_report)))
  = (telemetry_banner (JStr "UNKNOWN")
       :: page (except_branch (sample_result 0.4)), Done tt).
Proof. vm_compute. repeat split. Qed.

(** ** The clamp of the telemetry bar *)

Lemma bars_clamped_app (l1 l2 : list widget) :
  bars_clamped l1 -> bars_clamped l2 -> bars_clamped (l1 ++ l2).
Proof.
  unfold bars_clamped. rewrite progress_bars_app.
  intros H1 H2. now apply Forall_app.
Qed.

Lemma bars_clamped_nil : bars_clamped [].
Proof. constructor. Qed.

Section Clamp.

Context {A B : Type}.

Lemma clamped_bind (m : M A) (k : A -> M B) :
  bars_clamped (page m) -> (forall a, bars_clamped (page (k a))) ->
  bars_clamped (page (bind m k)).
Proof.
  intros Hm Hk. rewrite page_bind. apply bars_clamped_app; [assumption|].
  destruct (ending m); [apply Hk|apply bars_clamped_nil].
Qed.

(** After [bar = min(x, v)] only the values [min x y] need considering. *)
Lemma clamped_bind_min (x : num) (v : json) (k : num -> M B) :
  (forall y, bars_clamped (page (k (PyNum.min x y)))) ->
  bars_clamped (page (bind (py_min x v) k)).
Proof.
  intros Hk. unfold py_min. destruct (as_number v) as [y|].
  - rewrite bind_ret. apply Hk.
  - apply bars_clamped_nil.
Qed.

End Clamp.

Lemma f_1_0_not_nan : f_1_0 <> NaN.
Proof. discriminate. Qed.

Lemma clamped_alert_block (k : alert) (banner : string) (v : json) :
  bars_clamped
    (page (render (Alert k [Lit banner]) ;;
           d <- py_percent 1 v ;;
           render (Alert k [Lit "Degradation: "; d; Lit " from baseline"]))).
Proof. unfold bars_clamped. rewrite alert_block_no_bar. constructor. Qed.

Ltac quiet_step :=
  apply clamped_bind;
  [first [rewrite page_py_get | rewrite page_py_percent | rewrite page_py_gt
         | idtac]; exact (Forall_nil _)
  |intros ?].

(** Whatever the report holds, every bar the telemetry branch renders is at
    most 1.0. *)
Lemma telemetry_bars_clamped (result : prediction_result) (risk_data : json) :
  bars_clamped (page (telemetry_branch result risk_data)).
Proof.
  unfold telemetry_branch.
  do 3 quiet_step.
  apply clamped_bind.
  { destruct (eq_str _ "HIGH"); [|destruct (eq_str _ "MEDIUM")];
      apply clamped_alert_block. }
  intros _. quiet_step.
  apply clamped_bind_min. intros y.
  apply clamped_bind.
  { constructor; [|constructor]. apply min_le_first, f_1_0_not_nan. }
  intros _. do 7 quiet_step. exact (Forall_nil _).
Qed.

(** C9.  Every progress bar rendered by the telemetry branch is
    [min(1.0, ...)] and so at most 1.0, whatever the report and the
    confidence are, and the branch renders that bar as soon as the format
    accepts the overall degradation; the two fallback branches pass the
    confidence to the bar as it is. *)
Theorem telemetry_bar_at_most_one (result : prediction_result) :
  (forall risk_data : json,
     bars_clamped (page (telemetry_branch result risk_data))) /\
  (forall members d : list (string * json),
     field "degradation" members (JObj []) = JObj d ->
     formattable (field "overall_degradation" d (JInt 0)) = true ->
     exists v,
       progress_bars (page (telemetry_branch result (JObj members))) = [v]
       /\ le v f_1_0) /\
  (forall members : list (string * json),
     dict_has "error" members = false ->
     well_typed_report members = true ->
     exists v,
       progress_bars
         (page (model_health_risk result
                  (Response 200 (Some (JObj members))))) = [v]
       /\ le v f_1_0) /\
  progress_bars (page (error_marker_branch result)) = [confidence result] /\
  progress_bars (page (except_branch result)) = [confidence result] /\
  (forall r : reply,
     confidence_fallback r ->
     progress_bars (page (model_health_risk result r)) = [confidence result]).
Proof.
  split; [intros risk_data; apply telemetry_bars_clamped|].
  split.
  { intros members d Hd Hov.
    destruct (formattable (field "confidence_drop" d (JInt 0))
              && formattable (field "psi_increase" d (JInt 0))) eqn:Hlate.
    - assert (Htyped : well_typed_report members = true).
      { unfold well_typed_report. now rewrite Hd, Hov. }
      rewrite (telemetry_run result members Htyped). simpl page.
      rewrite telemetry_page_bars. eexists. split; [reflexivity|].
      apply min_le_first, f_1_0_not_nan.
    - destruct (telemetry_late_raise result members d Hd Hov Hlate)
        as (e & shown & He & Hbars & _).
      rewrite He. simpl page. rewrite Hbars.
      eexists. split; [reflexivity|].
      apply min_le_first, f_1_0_not_nan. }
  split.
  { intros members Hclean Htyped.
    rewrite (telemetry_block_run result members Hclean Htyped).
    rewrite (telemetry_run result members Htyped). simpl page.
    rewrite telemetry_page_bars. eexists. split; [reflexivity|].
    apply min_le_first, f_1_0_not_nan. }
  rewrite error_marker_is_except, except_branch_bars.
  repeat split.
  intros r Hr. now rewrite (confidence_fallback_run result r Hr), except_branch_bars.
Qed.

Lemma telemetry_bar_at_most_one_witness :
  progress_bars
    (page (model_health_risk (sample_result 1.5)
             (Response 200 (Some (JObj [("risk", JStr "LOW")])))))
  = [of_float 1.0]
  /\ progress_bars
       (page (model_health_risk (sample_result 1.5) (Failed ReadTimeout)))
     = [of_float 1.5]
  /\ gtb (of_float 1.5) f_1_0 = true.
Proof.
  split; [reflexivity|split; [|reflexivity]].
  apply (telemetry_bar_at_most_one (sample_result 1.5)).
  apply request_raised.
Defined.

(** ** The system-health indicator *)

Section SystemHealth.

Variable members : list (string * json).
Hypothesis Htyped : well_typed_failure_data members = true.

(** On a well-typed body the comparison block runs to its end and renders
    [system_page]. *)
Lemma system_health_run :
  model_comparison (Response 200 (Some (JObj members)))
  = (system_page (avg_confidence_of members) (failure_probability_of members),
     Done tt).
Proof using Htyped.
  unfold well_typed_failure_data, avg_confidence_of, failure_probability_of
    in *.
  apply andb_prop in Htyped as [Havg Hprob].
  unfold model_comparison. simpl. rewrite bind_ret.
  unfold system_health. rewrite py_get_field, bind_ret.
  destruct (field "metrics" members (JObj [])) as [| | | | | |m];
    try discriminate.
  rewrite py_get_field, bind_ret, py_get_field, bind_ret.
  rewrite (py_percent_number _ _ Havg), (py_percent_number _ _ Hprob).
  rewrite !(py_lt_number _ _ Hprob).
  unfold system_page.
  destruct (ltb _ f_0_3); [|destruct (ltb _ f_0_7)]; reflexivity.
Qed.

Lemma system_page_health (avg p : num) :
  displayed_health (system_page avg p) = Some (health_of_probability p).
Proof.
  unfold system_page, health_of_probability.
  destruct (ltb p f_0_3); [|destruct (ltb p f_0_7)]; reflexivity.
Qed.

Lemma system_page_metrics (avg p : num) :
  metrics (system_page avg p)
  = [("Expected Confidence", Formatted [Lit "High (>75%)"]);
     ("Expected Confidence", Formatted [Lit "Low (<60%)"]);
     ("Avg Confidence", Formatted [Percent 2 avg]);
     ("Failure Risk", Formatted [Percent 2 p])].
Proof.
  unfold system_page.
  destruct (ltb p f_0_3); [|destruct (ltb p f_0_7)]; reflexivity.
Qed.

End SystemHealth.

(** C5.  With a decoded failure-risk report the system indicator is a
    function of [failure_probability] alone: healthy below 0.3, at risk
    below 0.7, critical otherwise; it is the same whatever prediction was
    submitted and whatever the health block shows for it, so 0.29 gives a
    healthy system and 0.71 a critical one. *)
Theorem system_health_thresholds
  (submitted : option (prediction_result * reply))
  (members : list (string * json)) :
  well_typed_failure_data members = true ->
  let p := failure_probability_of members in
  let shown :=
    page (snd (main submitted (Response 200 (Some (JObj members))))) in
  displayed_health shown = Some (health_of_probability p) /\
  (lt p f_0_3 -> displayed_health shown = Some SYSTEM_HEALTHY) /\
  (ltb p f_0_3 = false -> lt p f_0_7 -> displayed_health shown = Some AT_RISK) /\
  (ltb p f_0_7 = false -> displayed_health shown = Some SYSTEM_CRITICAL) /\
  (p = of_float 0.29 -> displayed_health shown = Some SYSTEM_HEALTHY) /\
  (p = of_float 0.71 -> displayed_health shown = Some SYSTEM_CRITICAL).
Proof.
  intros Htyped p shown. subst shown. unfold main. simpl snd.
  rewrite (system_health_run members Htyped). simpl page.
  rewrite system_page_health. fold p. unfold health_of_probability, lt.
  repeat split.
  - now intros ->.
  - now intros -> ->.
  - intros H7. destruct (ltb p f_0_3) eqn:H3; [|now rewrite H7].
    now rewrite (ltb_trans _ _ _ H3 f_0_3_lt_f_0_7) in H7.
  - now intros ->.
  - now intros ->.
Qed.

Lemma system_health_thresholds_witness :
  displayed_risk
    (page (fst (main (Some (sample_result 0.3, Failed ConnectionError))
                  (Response 200 (Some (JObj (probability_report 0.29)))))))
  = Some CRITICAL
  /\ displayed_health
       (page (snd (main (Some (sample_result 0.3, Failed ConnectionError))
                     (Response 200 (Some (JObj (probability_report 0.29)))))))
     = Some SYSTEM_HEALTHY
  /\ displayed_risk
       (page (fst (main (Some (sample_result 0.9, Failed ConnectionError))
                     (Response 200 (Some (JObj (probability_report 0.71)))))))
     = Some HEALTHY
  /\ displayed_health
       (page (snd (main (Some (sample_result 0.9, Failed ConnectionError))
                     (Response 200 (Some (JObj (probability_report 0.71)))))))
     = Some SYSTEM_CRITICAL.
Proof.
  split; [reflexivity|split; [|split; [reflexivity|]]].
  - apply (system_health_thresholds
             (Some (sample_result 0.3, Failed ConnectionError))
             (probability_report 0.29) eq_refl).
    reflexivity.
  - apply (system_health_thresholds
             (Some (sample_result 0.9, Failed ConnectionError))
             (probability_report 0.71) eq_refl).
    reflexivity.
Defined.

(** C10.  A decoded report without [failure_probability] reads it as 0, so
    the "Failure Risk" metric shows 0 and the system is shown healthy; a
    report without [metrics], or whose [metrics] has no [avg_confidence],
    shows 0 as "Avg Confidence". *)
Theorem missing_probability_defaults (members : list (string * json)) :
  well_typed_failure_data members = true ->
  let run := model_comparison (Response 200 (Some (JObj members))) in
  (dict_lookup "failure_probability" members = None ->
   failure_probability_of members = i_0 /\
   ending run = Done tt /\
   displayed_health (page run) = Some SYSTEM_HEALTHY /\
   In ("Failure Risk", Formatted [Percent 2 i_0]) (metrics (page run))) /\
  (dict_lookup "metrics" members = None ->
   In ("Avg Confidence", Formatted [Percent 2 i_0]) (metrics (page run))) /\
  (forall m, dict_lookup "metrics" members = Some (JObj m) ->
   dict_lookup "avg_confidence" m = None ->
   In ("Avg Confidence", Formatted [Percent 2 i_0]) (metrics (page run))).
Proof.
  intros Htyped run. subst run.
  rewrite (system_health_run members Htyped). simpl page. simpl ending.
  rewrite system_page_health, system_page_metrics.
  unfold failure_probability_of, avg_confidence_of, field.
  split; [intros H|split; [intros H|intros m H H0]].
  - rewrite H. repeat split. simpl. tauto.
  - rewrite H. simpl. tauto.
  - rewrite H, H0. simpl. tauto.
Qed.

Lemma missing_probability_defaults_witness :
  displayed_health (page (model_comparison (Response 200 (Some (JObj [])))))
  = Some SYSTEM_HEALTHY.
Proof.
  apply (missing_probability_defaults [] eq_refl). reflexivity.
Defined.

(** ** A response with an error status *)

(** The status test of line 218 has no [else]: any status other than 200
    leaves the health block empty. *)
Lemma health_block_silent (result : prediction_result) (status_code : Z)
  (body : option json) :
  status_code <> 200%Z ->
  model_health_risk result (Response status_code body) = ([], Done tt).
Proof.
  intros H. unfold model_health_risk.
  apply Z.eqb_neq in H. now rewrite H.
Qed.

(** C8, where the code departs from it.  When [/failure-risk] answers with
    a status other than 200 - here 503 - the health block renders nothing:
    no alert, no bar, no metric, so no verdict; the comparison block, on
    the same reply, renders its fallback (lines 386-396). *)
Theorem health_block_silent_on_error_status (result : prediction_result)
  (body : option json) :
  model_health_risk result (Response 503 body) = ([], Done tt) /\
  verdict_of (page (model_health_risk result (Response 503 body))) = None /\
  model_comparison (Response 503 body) = comparison_unavailable /\
  List.length (page (model_comparison (Response 503 body))) = 7%nat.
Proof. repeat split. Qed.

(** ** Two submissions end to end *)

(** Confidence 0.9 and a request that fails: the handler shows HEALTHY with
    a bar at 0.9. *)
Example submission_without_report :
  verdict_of
    (page (model_health_risk (sample_result 0.9) (Failed ConnectionError)))
  = Some (fallback_verdict HEALTHY (of_float 0.9) "Healthy" "Low").
Proof. reflexivity. Qed.

(** Confidence 0.4 and a MEDIUM report with an overall degradation of 0.35:
    the telemetry branch shows RISKY with a bar at 0.35. *)
Example submission_with_report :
  verdict_of
    (page (model_health_risk (sample_result 0.4)
             (Response 200 (Some (JObj (degradation_report 0.35))))))
  = Some {| risk_level := RISKY;
            progress_value := of_float 0.35;
            breakdown :=
              [("Confidence Drop", Formatted [Percent 2 i_0]);
               ("PSI Increase", Formatted [Percent 2 i_0]);
               ("Risk Level", Raw (JStr "MEDIUM"))] |}.
Proof. reflexivity. Qed.

(** * Further properties of the health block *)

(** ** Bodies that are not reports *)

Lemma telemetry_not_object (result : prediction_result) (v : json) :
  is_object v = false ->
  telemetry_branch result v = ([], Raised AttributeError).
Proof. destruct v; try discriminate; reflexivity. Qed.

(** A decoded body that is not a JSON object - null, a boolean, a number,
    a string, an array - is rendered as the confidence fallback and nothing
    else: the membership test or the first [.get] raises before anything
    is rendered, or the string or array holds ["error"]. *)
Theorem non_object_body_falls_back (result : prediction_result) (v : json) :
  is_object v = false ->
  model_health_risk result (Response 200 (Some v)) = except_branch result.
Proof.
  intros Hv. unfold model_health_risk. simpl. rewrite bind_ret.
  destruct v as [| | | |s|items|members]; try discriminate;
    try (simpl py_in; rewrite bind_raise; apply try_raise);
    unfold py_in; rewrite bind_ret;
    match goal with |- context [negb ?b] => destruct b end; simpl negb;
    cbv iota;
    try (rewrite telemetry_not_object by reflexivity;
         apply (try_raise AttributeError));
    rewrite error_marker_is_except;
    apply try_done with (a := tt), except_branch_done.
Qed.

Lemma non_object_body_falls_back_witness :
  model_health_risk (sample_result 0.6)
    (Response 200 (Some (JStr "Internal Server Error")))
  = except_branch (sample_result 0.6)
  /\ model_health_risk (sample_result 0.6) (Response 200 (Some (JArr [])))
     = except_branch (sample_result 0.6)
  /\ model_health_risk (sample_result 0.6) (Response 200 (Some JNull))
     = except_branch (sample_result 0.6).
Proof.
  split; [|split];
    apply (non_object_body_falls_back (sample_result 0.6)); reflexivity.
Defined.

(** ** Reports with wrongly typed fields, on the whole block *)

(** For a decoded object without ["error"], the telemetry branch runs to
    its end exactly when the report is well typed; on any other report the
    handler runs and appends the confidence fallback to what the branch
    had rendered. *)
Theorem telemetry_ends_iff_well_typed (result : prediction_result)
  (members : list (string * json)) :
  (ending (telemetry_branch result (JObj members)) = Done tt
   <-> well_typed_report members = true) /\
  (dict_has "error" members = false ->
   well_typed_report members = false ->
   model_health_risk result (Response 200 (Some (JObj members)))
   = (page (telemetry_branch result (JObj members))
        ++ page (except_branch result), Done tt)).
Proof.
  split.
  - split; [apply telemetry_done_well_typed|].
    intros H. now rewrite (telemetry_run result members H).
  - intros Hclean Hbad. unfold model_health_risk. simpl.
    unfold py_in. rewrite !bind_ret, Hclean. simpl negb. cbv iota.
    destruct (telemetry_branch result (JObj members)) as [shown [[]|e]] eqn:E.
    + assert (H : ending (telemetry_branch result (JObj members)) = Done tt)
        by now rewrite E.
      apply telemetry_done_well_typed in H. congruence.
    + unfold try_except, page. simpl.
      pose proof (except_branch_done result) as Hdone.
      destruct (except_branch result) as [shown2 r2]. simpl in *.
      now subst r2.
Qed.

Lemma telemetry_ends_iff_well_typed_witness :
  model_health_risk (sample_result 0.9)
    (Response 200 (Some (JObj null_degradation_report)))
  = except_branch (sample_result 0.9).
Proof.
  apply (proj2 (telemetry_ends_iff_well_typed (sample_result 0.9)
                  null_degradation_report) eq_refl eq_refl).
Defined.

(** When [degradation] is an object whose [overall_degradation] is not a
    number, the page opens with the telemetry banner for the report's risk
    and continues with the whole confidence fallback: two alerts, the first
    chosen by the report and the second by the confidence. *)
Theorem banner_then_fallback (result : prediction_result)
  (members d : list (string * json)) :
  dict_has "error" members = false ->
  field "degradation" members (JObj []) = JObj d ->
  is_number (field "overall_degradation" d (JInt 0)) = false ->
  let run := model_health_risk result (Response 200 (Some (JObj members))) in
  run = (telemetry_banner (field "risk" members (JStr "UNKNOWN"))
           :: page (except_branch result), Done tt) /\
  alerts (page run)
  = [match telemetry_banner (field "risk" members (JStr "UNKNOWN")) with
     | Alert k _ => k
     | _ => success
     end;
     if gtb (confidence result) f_0_75 then success
     else if gtb (confidence result) f_0_5 then warning else error].
Proof.
  intros Hclean Hd Hov run.
  assert (Hrun : run = (telemetry_banner (field "risk" members (JStr "UNKNOWN"))
                          :: page (except_branch result), Done tt)).
  { subst run. unfold model_health_risk. simpl.
    unfold py_in. rewrite !bind_ret, Hclean. simpl negb. cbv iota.
    destruct (telemetry_overall_not_number result members d Hd Hov) as [e ->].
    unfold try_except, page.
    pose proof (except_branch_done result) as Hdone.
    destruct (except_branch result) as [shown2 r2]. simpl in *.
    now subst r2. }
  split; [exact Hrun|]. rewrite Hrun. simpl page.
  unfold telemetry_banner, except_branch.
  destruct (eq_str _ "HIGH"); [|destruct (eq_str _ "MEDIUM")];
    (destruct (gtb (confidence result) f_0_75);
     [|destruct (gtb (confidence result) f_0_5)]); reflexivity.
Qed.

Lemma banner_then_fallback_witness :
  alerts
    (page (model_health_risk (sample_result 0.9)
             (Response 200 (Some (JObj text_degradation_report)))))
  = [error; success].
Proof.
  apply (banner_then_fallback (sample_result 0.9) text_degradation_report
           [("overall_degradation", JStr "n/a")] eq_refl eq_refl eq_refl).
Defined.

(** ** The progress bar stays a fraction *)

Lemma ltb_leb (x y : num) : ltb x y = true -> leb x y = true.
Proof.
  destruct x as [a| | |], y as [b| | |]; simpl; try congruence.
  rewrite Qltb_lt, Qle_bool_iff. apply Qlt_le_weak.
Qed.

Lemma ltb_leb_trans (x y z : num) :
  ltb x y = true -> leb y z = true -> ltb x z = true.
Proof.
  destruct x as [a| | |], y as [b| | |], z as [c| | |]; simpl;
    try congruence.
  rewrite Qle_bool_iff, !Qltb_lt. apply Qlt_le_trans.
Qed.

(** [min(1.0, y)] of a non-negative [y] is between 0 and 1. *)
Lemma min_one_in_range (y : num) :
  le i_0 y -> le i_0 (PyNum.min f_1_0 y) /\ le (PyNum.min f_1_0 y) f_1_0.
Proof.
  intros Hy. split; [|apply min_le_first, f_1_0_not_nan].
  unfold PyNum.min. now destruct (ltb y f_1_0).
Qed.

Section BarsAll.

Variable P : num -> Prop.

Lemma bars_all_app (l1 l2 : list widget) :
  bars_all P l1 -> bars_all P l2 -> bars_all P (l1 ++ l2).
Proof.
  unfold bars_all. rewrite progress_bars_app.
  intros H1 H2. now apply Forall_app.
Qed.

Lemma bars_all_bind {A B : Type} (m : M A) (k : A -> M B) :
  bars_all P (page m) -> (forall a, bars_all P (page (k a))) ->
  bars_all P (page (bind m k)).
Proof.
  intros Hm Hk. rewrite page_bind. apply bars_all_app; [assumption|].
  destruct (ending m); [apply Hk|constructor].
Qed.

Lemma bars_all_try {A : Type} (m h : M A) :
  bars_all P (page m) -> bars_all P (page h) -> bars_all P (page (try_except m h)).
Proof.
  intros Hm Hh. rewrite page_try. apply bars_all_app; [assumption|].
  destruct (ending m); [constructor|assumption].
Qed.

End BarsAll.

Lemma page_py_in (key : string) (container : json) :
  page (py_in key container) = [].
Proof. now destruct container. Qed.

Lemma page_response_json (body : option json) : page (response_json body) = [].
Proof. now destruct body. Qed.

Ltac silent_step :=
  apply bars_all_bind;
  [first [rewrite page_py_get | rewrite page_py_percent | rewrite page_py_gt
         | rewrite page_py_in | rewrite page_response_json | idtac];
   exact (Forall_nil _)
  |intros ?].

Section Fraction.

Variable result : prediction_result.
Hypothesis Hlow : le i_0 (confidence result).
Hypothesis Hhigh : le (confidence result) f_1_0.

Lemma except_branch_in_range : bars_in_range (page (except_branch result)).
Proof using Hlow Hhigh.
  unfold bars_in_range, bars_all. rewrite except_branch_bars.
  constructor; [now split|constructor].
Qed.

(** The guard [overall_deg > 0] and [min(1.0, ...)] together keep the
    telemetry bar between 0 and 1, whatever the report holds. *)
Lemma telemetry_in_range (risk_data : json) :
  bars_in_range (page (telemetry_branch result risk_data)).
Proof using Hlow Hhigh.
  unfold bars_in_range, telemetry_branch.
  do 3 silent_step.
  apply bars_all_bind.
  { unfold bars_all. destruct (eq_str _ "HIGH"); [|destruct (eq_str _ "MEDIUM")];
      rewrite alert_block_no_bar; constructor. }
  intros _. unfold py_gt, py_min.
  destruct (as_number a1) as [x|] eqn:Hx; [|exact (Forall_nil _)].
  rewrite bind_ret.
  assert (Hbar : exists y,
    le i_0 y /\
    match as_number (if gtb x i_0 then a1 else JFloat (confidence result)) with
    | Some y0 => ret (PyNum.min f_1_0 y0)
    | None => raise TypeError
    end = ret (PyNum.min f_1_0 y)).
  { destruct (gtb x i_0) eqn:Hpos.
    - exists x. rewrite Hx. split; [now apply ltb_leb|reflexivity].
    - exists (confidence result). now split. }
  destruct Hbar as (y & Hy & ->). rewrite bind_ret.
  apply bars_all_bind.
  { constructor; [now apply min_one_in_range|constructor]. }
  intros _. do 7 silent_step. exact (Forall_nil _).
Qed.

End Fraction.

(** With a confidence between 0 and 1, every progress bar the health block
    renders is between 0 and 1, for every reply and every body - also when
    the report's overall degradation is negative, above 1 or NaN. *)
Theorem bar_is_a_fraction (result : prediction_result) (r : reply) :
  le i_0 (confidence result) ->
  le (confidence result) f_1_0 ->
  bars_in_range (page (model_health_risk result r)).
Proof.
  intros Hlow Hhigh. unfold bars_in_range, model_health_risk.
  apply bars_all_try; [|now apply except_branch_in_range].
  destruct r as [e|status_code body]; [exact (Forall_nil _)|].
  destruct (status_code =? 200)%Z; [|exact (Forall_nil _)].
  do 2 silent_step.
  destruct (negb a0).
  - now apply telemetry_in_range.
  - rewrite error_marker_is_except. now apply except_branch_in_range.
Qed.

Lemma bar_is_a_fraction_witness :
  bars_in_range
    (page (model_health_risk (sample_result 0.8)
             (Response 200 (Some (JObj negative_degradation_report)))))
  /\ bars_in_range
       (page (model_health_risk (sample_result 0.8)
                (Response 200 (Some (JObj overshoot_report))))).
Proof.
  split; apply (bar_is_a_fraction (sample_result 0.8)); reflexivity.
Defined.

(** ** Levels follow the numbers *)

Lemma except_branch_risk (result : prediction_result) :
  displayed_risk (page (except_branch result))
  = Some (risk_level (threshold_verdict (confidence result))).
Proof.
  unfold except_branch, threshold_verdict.
  destruct (gtb (confidence result) f_0_75);
    [|destruct (gtb (confidence result) f_0_5)]; reflexivity.
Qed.

Lemma threshold_verdict_monotone (c1 c2 : num) :
  le c1 c2 ->
  (severity (risk_level (threshold_verdict c2))
   <= severity (risk_level (threshold_verdict c1)))%nat.
Proof.
  unfold le, threshold_verdict, gtb. intros H.
  destruct (ltb f_0_75 c1) eqn:H1.
  { now rewrite (ltb_leb_trans _ _ _ H1 H). }
  destruct (ltb f_0_5 c1) eqn:H2.
  { rewrite (ltb_leb_trans _ _ _ H2 H).
    destruct (ltb f_0_75 c2); simpl; lia. }
  destruct (ltb f_0_75 c2); [|destruct (ltb f_0_5 c2)]; simpl; lia.
Qed.

(** In the confidence fallback a higher confidence never shows a worse
    level. *)
Theorem fallback_level_monotone (result1 result2 : prediction_result)
  (r1 r2 : reply) :
  confidence_fallback r1 ->
  confidence_fallback r2 ->
  le (confidence result1) (confidence result2) ->
  exists l1 l2,
    displayed_risk (page (model_health_risk result1 r1)) = Some l1 /\
    displayed_risk (page (model_health_risk result2 r2)) = Some l2 /\
    (severity l2 <= severity l1)%nat.
Proof.
  intros H1 H2 Hle.
  rewrite (confidence_fallback_run result1 r1 H1).
  rewrite (confidence_fallback_run result2 r2 H2).
  rewrite !except_branch_risk. do 2 eexists.
  split; [reflexivity|split; [reflexivity|]].
  now apply threshold_verdict_monotone.
Qed.

Lemma fallback_level_monotone_witness :
  exists l1 l2,
    displayed_risk
      (page (model_health_risk (sample_result 0.5) (Failed ReadTimeout)))
    = Some l1 /\
    displayed_risk
      (page (model_health_risk (sample_result 0.75)
               (Response 200 (Some (JObj (error_report JNull))))))
    = Some l2 /\
    (severity l2 <= severity l1)%nat.
Proof.
  apply (fallback_level_monotone (sample_result 0.5) (sample_result 0.75)
           (Failed ReadTimeout)
           (Response 200 (Some (JObj (error_report JNull))))
           (request_raised ReadTimeout)
           (error_marker (error_report JNull) eq_refl) eq_refl).
Defined.

Lemma health_of_probability_monotone (p1 p2 : num) :
  le p1 p2 ->
  (gravity (health_of_probability p1)
   <= gravity (health_of_probability p2))%nat.
Proof.
  unfold le, health_of_probability. intros H.
  destruct (ltb p2 f_0_3) eqn:H1.
  { now rewrite (leb_ltb_trans _ _ _ H H1). }
  destruct (ltb p2 f_0_7) eqn:H2.
  { rewrite (leb_ltb_trans _ _ _ H H2).
    destruct (ltb p1 f_0_3); simpl; lia. }
  destruct (ltb p1 f_0_3); [|destruct (ltb p1 f_0_7)]; simpl; lia.
Qed.

(** A higher failure probability never shows a better system health. *)
Theorem system_health_monotone (members1 members2 : list (string * json)) :
  well_typed_failure_data members1 = true ->
  well_typed_failure_data members2 = true ->
  le (failure_probability_of members1) (failure_probability_of members2) ->
  exists h1 h2,
    displayed_health
      (page (model_comparison (Response 200 (Some (JObj members1))))) = Some h1 /\
    displayed_health
      (page (model_comparison (Response 200 (Some (JObj members2))))) = Some h2 /\
    (gravity h1 <= gravity h2)%nat.
Proof.
  intros H1 H2 Hle.
  rewrite (system_health_run members1 H1), (system_health_run members2 H2).
  simpl page. rewrite !system_page_health. do 2 eexists.
  split; [reflexivity|split; [reflexivity|]].
  now apply health_of_probability_monotone.
Qed.

Lemma system_health_monotone_witness :
  exists h1 h2,
    displayed_health
      (page (model_comparison
               (Response 200 (Some (JObj (probability_report 0.29))))))
    = Some h1 /\
    displayed_health
      (page (model_comparison
               (Response 200 (Some (JObj (probability_report 0.71))))))
    = Some h2 /\
    (gravity h1 <= gravity h2)%nat.
Proof.
  apply (system_health_monotone (probability_report 0.29)
           (probability_report 0.71) eq_refl eq_refl eq_refl).
Defined.

(** * The comparison block *)

Lemma comparison_failed_done : ending comparison_failed = Done tt.
Proof. reflexivity. Qed.

Lemma system_health_intro (failure_data : json) :
  exists rest,
    page (system_health failure_data) = comparison_intro ++ rest.
Proof.
  unfold system_health. rewrite !page_bind. simpl.
  eexists. reflexivity.
Qed.

(** On a body it cannot read the block raises before it reaches the
    indicator. *)
Lemma system_health_unreadable (v : json) :
  readable_failure_data v = false ->
  alerts (page (system_health v)) = []
  /\ exists e, ending (system_health v) = Raised e.
Proof.
  destruct v as [| | | | | |members];
    try (intros _; split; [reflexivity|eexists; reflexivity]).
  simpl. unfold well_typed_failure_data, system_health. intros H.
  rewrite py_get_field, bind_ret.
  destruct (field "metrics" members (JObj [])) as [| | | | | |m];
    try (split; [reflexivity|eexists; reflexivity]).
  rewrite py_get_field, bind_ret, py_get_field, bind_ret.
  destruct (formattable (field "avg_confidence" m (JInt 0))) eqn:Havg.
  - simpl in H. rewrite (py_percent_number _ _ Havg).
    destruct (py_percent_unformattable 2 _ H) as [e ->].
    split; [reflexivity|eexists; reflexivity].
  - destruct (py_percent_unformattable 2 _ Havg) as [e ->].
    split; [reflexivity|eexists; reflexivity].
Qed.

Lemma no_alert (shown : list widget) : alerts shown = [] -> ~ has_alert shown.
Proof. intros H (k & rest & Hk). congruence. Qed.

(** The comparison block never lets an exception out, and whatever the
    reply - a failed request, any status, any body - the page names both
    models. *)
Theorem comparison_always_rendered (r : reply) :
  ending (model_comparison r) = Done tt /\
  In (Markdown "**🟢 Good Model**") (page (model_comparison r)) /\
  In (Markdown "**🔴 Bad Model**") (page (model_comparison r)).
Proof.
  unfold model_comparison. split.
  { rewrite ending_try.
    match goal with |- match ending ?m with _ => _ end = _ =>
      destruct (ending m) as [[]|e] end; reflexivity. }
  rewrite page_try.
  destruct r as [e|status_code [v|]];
    [simpl; tauto|destruct (status_code =? 200)%Z; [|simpl; tauto]..].
  - unfold response_json. rewrite bind_ret.
    destruct (system_health_intro v) as [rest ->].
    split; apply in_or_app; left; apply in_or_app; left; simpl; tauto.
  - simpl. tauto.
Qed.

(** The system-health indicator is shown exactly when the reply has status
    200 and its body is an object with well-typed fields; on every other
    reply the page has no alert at all. *)
Theorem indicator_iff_readable (r : reply) :
  has_alert (page (model_comparison r))
  <-> exists members,
        r = Response 200 (Some (JObj members))
        /\ well_typed_failure_data members = true.
Proof.
  split.
  - intros H. destruct r as [e|status_code [v|]].
    + now apply no_alert in H.
    + destruct (Z.eqb_spec status_code 200) as [->|Hs].
      * destruct (readable_failure_data v) eqn:Hv.
        { destruct v; try discriminate. eexists. now split. }
        exfalso. revert H. apply no_alert.
        unfold model_comparison. rewrite page_try, alerts_app. simpl.
        rewrite bind_ret.
        destruct (system_health_unreadable v Hv) as (-> & e & ->).
        reflexivity.
      * exfalso. revert H. apply no_alert.
        unfold model_comparison. apply Z.eqb_neq in Hs. now rewrite Hs.
    + exfalso. revert H. apply no_alert.
      unfold model_comparison. now destruct (status_code =? 200)%Z.
  - intros (members & -> & H). rewrite (system_health_run members H).
    simpl page. unfold has_alert, system_page.
    destruct (ltb _ f_0_3); [|destruct (ltb _ f_0_7)];
      eexists; eexists; reflexivity.
Qed.

(** A decoded body the block cannot read leaves the comparison on the page
    twice: the block has rendered its first part when the read raises, and
    the handler renders its own comparison after it.  For a body that is
    not an object the page is exactly the two parts. *)
Theorem unreadable_body_rendered_twice (v : json) :
  readable_failure_data v = false ->
  (exists rest,
     model_comparison (Response 200 (Some v))
     = (comparison_intro ++ rest ++ page comparison_failed, Done tt)) /\
  (is_object v = false ->
   model_comparison (Response 200 (Some v))
   = (comparison_intro ++ page comparison_failed, Done tt)).
Proof.
  intros Hv. split.
  - unfold model_comparison. simpl. rewrite bind_ret.
    destruct (system_health_unreadable v Hv) as (_ & e & He).
    destruct (system_health_intro v) as [rest Hrest].
    destruct (system_health v) as [shown out]. simpl in *. subst.
    exists rest. reflexivity.
  - destruct v; try discriminate; reflexivity.
Qed.

Lemma unreadable_body_rendered_twice_witness :
  (exists rest,
     model_comparison (Response 200 (Some (JObj [("metrics", JNull)])))
     = (comparison_intro ++ rest ++ page comparison_failed, Done tt))
  /\ model_comparison (Response 200 (Some (JArr [])))
     = (comparison_intro ++ page comparison_failed, Done tt).
Proof.
  split.
  - apply (unreadable_body_rendered_twice (JObj [("metrics", JNull)])
             eq_refl).
  - apply (unreadable_body_rendered_twice (JArr []) eq_refl). reflexivity.
Defined.

(** * The prediction block *)

Lemma health_block_done (result : prediction_result) (r : reply) :
  ending (model_health_risk result r) = Done tt.
Proof. unfold model_health_risk. apply handled_done. Qed.

Lemma lift_health_block (result : prediction_result) (r : reply) :
  lift (model_health_risk result r)
  = (map Widget (page (model_health_risk result r)), Ok tt).
Proof. unfold lift. now rewrite health_block_done. Qed.

Lemma b_bind_ret {A C : Type} (a : A) (k : A -> B C) :
  b_bind (b_ret a) k = k a.
Proof. unfold b_bind, b_ret. now destruct (k a). Qed.

Lemma b_bind_done {A C : Type} (shown : list element) (a : A) (k : A -> B C) :
  b_bind (shown, Ok a) k = (shown ++ fst (k a), snd (k a)).
Proof. unfold b_bind. now destruct (k a). Qed.

(** Every handler ends normally. *)
Lemma prediction_handlers_ok (api_base_url : string) (r : raised) :
  snd (prediction_handlers api_base_url r) = Ok tt.
Proof. destruct r as [[]| |]; reflexivity. Qed.

(** No exception leaves the prediction block, whatever the two requests
    return or raise and whatever the prediction response holds. *)
Theorem prediction_block_never_raises (api_base_url : string)
  (response : post_reply) (risk_response : reply) :
  snd (prediction_block api_base_url response risk_response) = Ok tt.
Proof.
  unfold prediction_block, b_try.
  match goal with |- snd (match ?m with _ => _ end) = _ =>
    destruct m as [shown [[]|r]] end; [reflexivity|].
  pose proof (prediction_handlers_ok api_base_url r) as H.
  destruct (prediction_handlers api_base_url r). exact H.
Qed.

Lemma prediction_error_status_run (api_base_url : string) (status_code : Z)
  (text : string) (body : option json) (risk_response : reply) :
  status_code <> 200%Z ->
  prediction_block api_base_url (PostResponse status_code text body)
    risk_response
  = ([Notice failure [Str "❌ API Error: "; Int status_code]; Code text],
     Ok tt).
Proof.
  intros H. unfold prediction_block. apply Z.eqb_neq in H. now rewrite H.
Qed.

(** A [/predict] reply with a status other than 200 shows the status code
    and the response text, and nothing of the result or the health block,
    whose request is not made. *)
Theorem prediction_error_status (api_base_url : string) (status_code : Z)
  (text : string) (body : option json) (risk_response : reply) :
  status_code <> 200%Z ->
  prediction_block api_base_url (PostResponse status_code text body)
    risk_response
  = ([Notice failure [Str "❌ API Error: "; Int status_code]; Code text],
     Ok tt)
  /\ prediction_block api_base_url (PostResponse status_code text body)
       risk_response
     = prediction_block api_base_url (PostResponse status_code text body)
         (Failed ConnectionError).
Proof.
  intros H. now rewrite !prediction_error_status_run.
Qed.

Lemma prediction_error_status_witness :
  prediction_block "http://127.0.0.1:8000"
    (PostResponse 422 "Unprocessable Entity" None) (Failed ConnectionError)
  = ([Notice failure [Str "❌ API Error: "; Int 422];
      Code "Unprocessable Entity"], Ok tt).
Proof.
  apply (prediction_error_status "http://127.0.0.1:8000" 422
           "Unprocessable Entity" None (Failed ConnectionError)).
  discriminate.
Defined.

(** A [requests.post] that raises [ConnectionError] gets the message that
    names the API address and the hint to start the API; any other
    exception of the request, and a body that does not decode, get the
    generic message with the exception's text. *)
Theorem prediction_request_failures (api_base_url : string)
  (risk_response : reply) :
  prediction_block api_base_url (PostFailed ConnectionError) risk_response
  = ([Notice failure
        [Str "❌ Connection failed! Is the API running at ";
         Str api_base_url; Str "?"];
      Notice hint
        [Str "Start the API with: `cd backend && uvicorn app:app --reload`"]],
     Ok tt) /\
  (forall e : exn,
     e <> ConnectionError ->
     prediction_block api_base_url (PostFailed e) risk_response
     = ([Notice failure [Str "❌ Error: "; Message (Builtin e)]], Ok tt)) /\
  (forall text : string,
     prediction_block api_base_url (PostResponse 200 text None) risk_response
     = ([Notice failure [Str "❌ Error: "; Message (Builtin JSONDecodeError)]],
        Ok tt)).
Proof.
  split; [reflexivity|split; [|reflexivity]].
  intros e He. destruct e; try reflexivity. now contradiction He.
Qed.

Arguments model_health_risk : simpl never.

Lemma accepted_field (accepts : json -> bool) (key : string)
  (members : list (string * json)) :
  accepts JNull = false ->
  accepts (field key members JNull) = true ->
  exists v, dict_lookup key members = Some v /\ accepts v = true.
Proof.
  unfold field. destruct (dict_lookup key members) as [v|]; [|congruence].
  intros _ H. now exists v.
Qed.

Lemma py_millis_scalable (v : json) :
  scalable v = true -> py_millis v = b_ret (Millis (number_of v)).
Proof.
  destruct v; try discriminate; try reflexivity.
  simpl. now destruct (too_large (z * 1000)).
Qed.

Section Readable.

Variable api_base_url : string.
Variable text : string.
Variable members : list (string * json).
Variable risk_response : reply.
Hypothesis Hreadable : readable_result (JObj members) = true.

(** A readable response is displayed in full: the four metrics, the health
    block for the displayed result, the expander with the raw response. *)
Lemma prediction_block_run :
  prediction_block api_base_url (PostResponse 200 text (Some (JObj members)))
    risk_response
  = (result_metrics members
       ++ map Widget (page (model_health_risk (result_of members)
                              risk_response))
       ++ [Expander "📋 View Full Response"; Json (JObj members)],
     Ok tt).
Proof using Hreadable.
  simpl in Hreadable.
  apply andb_prop in Hreadable as [H123 Hmt].
  apply andb_prop in H123 as [H12 Hlat].
  apply andb_prop in H12 as [Hpred Hconf].
  unfold dict_has in Hpred.
  destruct (dict_lookup "prediction" members) as [p|] eqn:Ep;
    [|discriminate].
  destruct (accepted_field formattable _ _ eq_refl Hconf) as (c & Ec & Hc).
  destruct (accepted_field scalable _ _ eq_refl Hlat) as (l & El & Hl).
  unfold result_metrics, result_of, field in *. rewrite Ep, Ec, El in *.
  destruct (dict_lookup "model_type" members) as [[| | | |mt| |]|] eqn:Em;
    try discriminate.
  unfold prediction_block. simpl Z.eqb. cbv iota.
  change (lift (response_json (Some (JObj members))))
    with (@b_ret json (JObj members)).
  pose proof (py_millis_scalable l Hl) as Hms.
  rewrite b_bind_ret. unfold py_item.
  rewrite Ep, b_bind_ret, Ec, b_bind_ret, (py_percent_number _ 2 Hc).
  change (lift (ret (Percent 2 (number_of c))))
    with (@b_ret piece (Percent 2 (number_of c))).
  rewrite b_bind_ret, El, b_bind_ret, Hms, b_bind_ret, Em, b_bind_ret.
  simpl py_upper. rewrite b_bind_ret, lift_health_block.
  reflexivity.
Qed.

End Readable.

Lemma shows_health_app (l1 l2 : list element) :
  shows_health (l1 ++ l2) = shows_health l1 || shows_health l2.
Proof. apply existsb_app. Qed.

(** A response whose fields cannot all be displayed stops the block before
    the health heading. *)
Lemma unreadable_no_health (api_base_url text : string) (v : json)
  (risk_response : reply) :
  readable_result v = false ->
  shows_health
    (fst (prediction_block api_base_url (PostResponse 200 text (Some v))
            risk_response)) = false.
Proof.
  intros H. unfold prediction_block. simpl Z.eqb. cbv iota.
  change (lift (response_json (Some v))) with (@b_ret json v).
  rewrite b_bind_ret.
  destruct v as [| | | | | |members]; try reflexivity.
  simpl in H. unfold dict_has, field in H. unfold py_item.
  destruct (dict_lookup "prediction" members) as [p|]; [|reflexivity].
  rewrite b_bind_ret.
  destruct (dict_lookup "confidence" members) as [c|]; [|reflexivity].
  rewrite b_bind_ret.
  destruct (formattable c) eqn:Hc.
  2:{ destruct c; try discriminate; try reflexivity.
      simpl in Hc. apply negb_false_iff in Hc.
      unfold py_percent. now rewrite Hc. }
  rewrite (py_percent_number _ 2 Hc).
  change (lift (ret (Percent 2 (number_of c))))
    with (@b_ret piece (Percent 2 (number_of c))).
  rewrite b_bind_ret.
  destruct (dict_lookup "latency" members) as [l|]; [|reflexivity].
  rewrite b_bind_ret.
  destruct (scalable l) eqn:Hl.
  2:{ destruct l; try discriminate; try reflexivity.
      simpl in Hl. apply negb_false_iff in Hl.
      unfold py_millis. now rewrite Hl. }
  rewrite (py_millis_scalable l Hl), b_bind_ret.
  destruct (dict_lookup "model_type" members) as [mt|]; [|reflexivity].
  rewrite b_bind_ret.
  destruct mt; try reflexivity. discriminate.
Qed.

(** The health block is rendered exactly when [/predict] answered 200 with
    an object whose [prediction] is present, whose [confidence] and
    [latency] are numbers and whose [model_type] is a string; it then runs
    on that numeric confidence, after the four metrics and before the raw
    response. *)
Theorem health_block_runs_iff_readable (api_base_url : string)
  (response : post_reply) (risk_response : reply) :
  shows_health (fst (prediction_block api_base_url response risk_response))
  = match response with
    | PostResponse status_code _ (Some v) =>
        (status_code =? 200)%Z && readable_result v
    | _ => false
    end
  /\ (forall text members,
        response = PostResponse 200 text (Some (JObj members)) ->
        readable_result (JObj members) = true ->
        prediction_block api_base_url response risk_response
        = (result_metrics members
             ++ map Widget (page (model_health_risk (result_of members)
                                    risk_response))
             ++ [Expander "📋 View Full Response"; Json (JObj members)],
           Ok tt)
        /\ as_number (field "confidence" members JNull)
           = Some (confidence (result_of members))).
Proof.
  split.
  - destruct response as [e|status_code text [v|]].
    + now destruct e.
    + destruct (Z.eqb_spec status_code 200) as [->|Hs].
      * destruct (readable_result v) eqn:Hv.
        { destruct v as [| | | | | |members]; try discriminate.
          rewrite (prediction_block_run api_base_url text members
                     risk_response Hv).
          unfold fst. rewrite shows_health_app. reflexivity. }
        now apply unreadable_no_health.
      * now rewrite (prediction_error_status_run api_base_url status_code
                       text (Some v) risk_response Hs).
    + unfold prediction_block. now destruct (status_code =? 200)%Z.
  - intros text members -> Hv. split.
    + now apply prediction_block_run.
    + simpl in Hv. apply andb_prop in Hv as [H123 _].
      apply andb_prop in H123 as [H12 _].
      apply andb_prop in H12 as [_ Hc].
      apply formattable_is_number in Hc.
      unfold result_of, displayed_result, number_of. simpl.
      unfold is_number in Hc.
      now destruct (as_number (field "confidence" members JNull)).
Qed.

Lemma health_block_runs_iff_readable_witness :
  prediction_block "http://127.0.0.1:8000"
    (PostResponse 200 "" (Some (JObj sample_response))) (Failed ReadTimeout)
  = (result_metrics sample_response
       ++ map Widget (page (except_branch (sample_result 0.9)))
       ++ [Expander "📋 View Full Response"; Json (JObj sample_response)],
     Ok tt).
Proof.
  apply (proj2 (health_block_runs_iff_readable "http://127.0.0.1:8000"
                  (PostResponse 200 "" (Some (JObj sample_response)))
                  (Failed ReadTimeout))
           "" sample_response eq_refl eq_refl).
Defined.

(** A response without a field stops at the first missing one: what was
    displayed before it stays, and the generic message carries the
    [KeyError] of that field. *)
Theorem missing_result_field (api_base_url text : string)
  (members : list (string * json)) (risk_response : reply) :
  let run :=
    prediction_block api_base_url
      (PostResponse 200 text (Some (JObj members))) risk_response in
  (dict_lookup "prediction" members = None ->
   run = ([Widget (Alert success
                     [Lit "✅ Prediction completed successfully!"]);
           Widget (Columns 4);
           Notice failure [Str "❌ Error: "; Message (KeyError "prediction")]],
          Ok tt)) /\
  (forall p,
     dict_lookup "prediction" members = Some p ->
     dict_lookup "confidence" members = None ->
     run = ([Widget (Alert success
                       [Lit "✅ Prediction completed successfully!"]);
             Widget (Columns 4);
             Widget (Metric "Prediction" (Raw p));
             Notice failure
               [Str "❌ Error: "; Message (KeyError "confidence")]],
            Ok tt)).
Proof.
  intros run. subst run. unfold prediction_block. simpl Z.eqb. cbv iota.
  change (lift (response_json (Some (JObj members))))
    with (@b_ret json (JObj members)).
  rewrite b_bind_ret. unfold py_item. split.
  - now intros ->.
  - intros p -> . rewrite b_bind_ret. now intros ->.
Qed.

Lemma missing_result_field_witness :
  prediction_block "http://127.0.0.1:8000"
    (PostResponse 200 "" (Some (JObj [("prediction", JInt 0)])))
    (Failed ReadTimeout)
  = ([Widget (Alert success [Lit "✅ Prediction completed successfully!"]);
      Widget (Columns 4);
      Widget (Metric "Prediction" (Raw (JInt 0)));
      Notice failure [Str "❌ Error: "; Message (KeyError "confidence")]],
     Ok tt).
Proof.
  apply (proj2 (missing_result_field "http://127.0.0.1:8000" ""
                  [("prediction", JInt 0)] (Failed ReadTimeout))
           (JInt 0) eq_refl eq_refl).
Defined.

(** * The input summary *)

Section ListItem.

Context {A : Type}.
Variable l : list A.

Lemma py_list_item_out (i : Z) :
  indexable (Z.of_nat (List.length l)) i = false ->
  py_list_item l i = b_raise IndexError.
Proof.
  unfold indexable, py_list_item. intros H.
  apply andb_false_iff in H.
  destruct (Z.ltb_spec i 0).
  - assert (E : ((0 <=? i + Z.of_nat (List.length l))
                 && (i + Z.of_nat (List.length l)
                     <? Z.of_nat (List.length l)))%Z = false).
    { apply andb_false_iff. destruct H as [H|H]; [left|right].
      - apply Z.leb_gt. apply Z.leb_gt in H. lia.
      - apply Z.ltb_ge. apply Z.ltb_ge in H. lia. }
    now rewrite E.
  - assert (E : ((0 <=? i) && (i <? Z.of_nat (List.length l)))%Z = false).
    { apply andb_false_iff. destruct H as [H|H]; [left|right].
      - apply Z.leb_gt. apply Z.leb_gt in H. lia.
      - exact H. }
    now rewrite E.
Qed.

Lemma py_list_item_in (i : Z) :
  indexable (Z.of_nat (List.length l)) i = true ->
  exists a, py_list_item l i = b_ret a.
Proof.
  unfold indexable, py_list_item. intros H.
  apply andb_prop in H as [H1 H2].
  apply Z.leb_le in H1. apply Z.ltb_lt in H2.
  set (n := Z.of_nat (List.length l)) in *.
  set (j := if (i <? 0)%Z then (i + n)%Z else i).
  assert (Hj : (0 <= j < n)%Z).
  { subst j. destruct (Z.ltb_spec i 0); lia. }
  assert (E : ((0 <=? j) && (j <? n))%Z = true).
  { apply andb_true_intro. split; [apply Z.leb_le|apply Z.ltb_lt]; lia. }
  rewrite E.
  destruct (nth_error l (Z.to_nat j)) as [a|] eqn:En; [now exists a|].
  apply nth_error_None in En. subst n. lia.
Qed.

(** From the front, an index in range picks the element at that place. *)
Lemma py_list_item_front (i : Z) (default : A) :
  (0 <= i < Z.of_nat (List.length l))%Z ->
  py_list_item l i = b_ret (nth (Z.to_nat i) l default).
Proof.
  intros H. unfold py_list_item.
  destruct (Z.ltb_spec i 0); [lia|].
  assert (E : ((0 <=? i) && (i <? Z.of_nat (List.length l)))%Z = true).
  { apply andb_true_intro. split; [apply Z.leb_le|apply Z.ltb_lt]; lia. }
  rewrite E.
  rewrite (nth_error_nth' l default); [reflexivity|lia].
Qed.

End ListItem.

(** For every value the input widgets can return - a day from 0 to 6, a
    weather and a road risk from 0 to 2 - the input summary is rendered
    without an [IndexError], with the day and risk names at those places
    and the style class of the chosen model. *)
Theorem input_summary_in_widget_ranges (model_choice : string)
  (traffic_volume time_of_day day_of_week weather_risk road_risk : Z) :
  (0 <= day_of_week <= 6)%Z ->
  (0 <= weather_risk <= 2)%Z ->
  (0 <= road_risk <= 2)%Z ->
  input_summary model_choice traffic_volume time_of_day day_of_week
    weather_risk road_risk
  = ([Subheader "📝 Input Summary";
      Summary (if String.eqb model_choice "good" then "good-model"
               else "bad-model")
        (Upper model_choice) traffic_volume time_of_day
        (nth (Z.to_nat day_of_week) day_names "")
        (nth (Z.to_nat weather_risk) risk_names "")
        (nth (Z.to_nat road_risk) risk_names "")],
     Ok tt).
Proof.
  intros Hd Hw Hr. unfold input_summary.
  change ["Mon"; "Tue"; "Wed"; "Thu"; "Fri"; "Sat"; "Sun"] with day_names.
  change ["Low"; "Medium"; "High"] with risk_names.
  rewrite (py_list_item_front day_names day_of_week "") by (simpl; lia).
  rewrite b_bind_ret.
  rewrite (py_list_item_front risk_names weather_risk "") by (simpl; lia).
  rewrite b_bind_ret.
  rewrite (py_list_item_front risk_names road_risk "") by (simpl; lia).
  rewrite b_bind_ret. reflexivity.
Qed.

Lemma input_summary_in_widget_ranges_witness :
  input_summary "bad" 50 12 6 1 0
  = ([Subheader "📝 Input Summary";
      Summary "bad-model" (Upper "bad") 50 12 "Sun" "Medium" "Low"], Ok tt).
Proof.
  apply (input_summary_in_widget_ranges "bad" 50 12 6 1 0); lia.
Defined.

(** The input summary raises [IndexError] exactly when a day index is
    outside -7..6 or a risk index outside -3..2: Python counts a negative
    index from the end of the list. *)
Theorem input_summary_index_error (model_choice : string)
  (traffic_volume time_of_day day_of_week weather_risk road_risk : Z) :
  snd (input_summary model_choice traffic_volume time_of_day day_of_week
         weather_risk road_risk)
  = if indexable 7 day_of_week && indexable 3 weather_risk
       && indexable 3 road_risk
    then Ok tt else Fault IndexError.
Proof.
  unfold input_summary.
  change (show (Subheader "📝 Input Summary"))
    with ([Subheader "📝 Input Summary"], @Ok unit tt).
  rewrite b_bind_done. simpl snd.
  change ["Mon"; "Tue"; "Wed"; "Thu"; "Fri"; "Sat"; "Sun"] with day_names.
  change ["Low"; "Medium"; "High"] with risk_names.
  destruct (indexable 7 day_of_week) eqn:Hd.
  2:{ rewrite (py_list_item_out day_names day_of_week Hd). reflexivity. }
  destruct (py_list_item_in day_names day_of_week Hd) as [day Eday].
  rewrite Eday, b_bind_ret.
  destruct (indexable 3 weather_risk) eqn:Hw.
  2:{ rewrite (py_list_item_out risk_names weather_risk Hw). reflexivity. }
  destruct (py_list_item_in risk_names weather_risk Hw) as [weather Ew].
  rewrite Ew, b_bind_ret.
  destruct (indexable 3 road_risk) eqn:Hr.
  2:{ rewrite (py_list_item_out risk_names road_risk Hr). reflexivity. }
  destruct (py_list_item_in risk_names road_risk Hr) as [road Er].
  rewrite Er, b_bind_ret. reflexivity.
Qed.
